(** * investment_app: cash-flow projection and investment appraisal

    A shallow embedding of [src/python.py] (a Streamlit script) and the
    properties of its numeric core: parameter normalisation, the straight-line
    cash-flow table, and the four appraisal metrics NPV, IRR, PP and DPP.

    Numbers.  Python's [float] and NumPy's [float64] are modelled by exact
    rationals [Q]; [nan] is a separate constructor.  Rounding, overflow and
    [inf] are outside that model, so a statement on it reads "in exact
    arithmetic".  Equalities between computed amounts are [Qeq] ([==]).
    The payback blocks of [calculate_project_metrics] are embedded a second
    time over an arbitrary arithmetic (module [Machine]), of which IEEE
    binary64 is an instance: a statement on [Machine] holds of the floats
    the script computes with.

    Lines 371-374.  As written they do not parse ([except] and [else] stand
    at each other's columns).  [appraise] reads them by keyword;
    [appraise_under] gives the flow under each of the two one-edit repairs.

    Effects.  Streamlit calls that report to the user ([st.error],
    [st.warning]) are collected in an event log carried by a small writer
    monad; pure layout calls ([st.subheader], [st.markdown], [st.columns])
    leave no trace in the model.

    Collaborators.  python-docx, the extraction service, [pd.read_json],
    [str.strip] and [npf.irr] are outside the repository; the script is
    modelled over them as parameters, and each request to the service is an
    event of the run's trace. *)

From Stdlib Require Import Floats Uint63.
From Stdlib Require Import Ascii String.
From Stdlib Require Import QArith Qabs Qminmax Qround Qpower Qfield Lqa.
From Stdlib Require Import ZArith List Bool Lia Morphisms.
Import ListNotations.

Open Scope Q_scope.

(** ** Values *)

(** A NumPy float: a number or [nan]. *)
Inductive npfloat : Type :=
| Num (x : Q)
| NaN.

(** [np.isnan]. *)
Definition np_isnan (x : npfloat) : bool :=
  match x with NaN => true | Num _ => false end.

(** What a call of [npf.irr] can do inside the [try] of lines 114-118:
    return a float, or raise [ValueError]. *)
Inductive irr_outcome : Type :=
| IrrReturn (x : npfloat)
| IrrValueError.

(** A payback period: a float, or the string ['Không hoàn vốn'] ("no
    payback"), the value [pp] and [dpp] are initialised with. *)
Inductive payback : Type :=
| Years (t : Q)
| KhongHoanVon.

(** [float(n)] and int-to-float promotion for array indices. *)
Definition Qnat (n : nat) : Q := inject_Z (Z.of_nat n).

(** ** The NumPy operations the script uses *)

Module Np.

(** [np.insert(a, 0, x)]. *)
Definition insert0 (a : list Q) (x : Q) : list Q := x :: a.

Fixpoint cumsum_from (acc : Q) (a : list Q) : list Q :=
  match a with
  | [] => []
  | x :: rest => (acc + x) :: cumsum_from (acc + x) rest
  end.

(** [np.cumsum(a)]: the running totals. *)
Definition cumsum (a : list Q) : list Q :=
  match a with
  | [] => []
  | x :: rest => x :: cumsum_from x rest
  end.

(** [a >= 0], element by element. *)
Definition ge0 (a : list Q) : list bool := map (fun x => Qle_bool 0 x) a.

Fixpoint where_from (i : nat) (mask : list bool) : list nat :=
  match mask with
  | [] => []
  | b :: rest => if b then i :: where_from (S i) rest else where_from (S i) rest
  end.

(** [np.where(mask)[0]]: the positions where the mask holds, ascending. *)
Definition where_true (mask : list bool) : list nat := where_from 0 mask.

(** [np.arange(lo, hi)]. *)
Definition arange (lo hi : nat) : list nat := seq lo (hi - lo).

(** [a[i]] for an index within bounds. *)
Definition item (a : list Q) (i : nat) : Q := nth i a 0.

(** [a * b] on arrays of one length. *)
Fixpoint mul (a b : list Q) : list Q :=
  match a, b with
  | x :: a', y :: b' => (x * y) :: mul a' b'
  | _, _ => []
  end.

(** [1 / (base ** exponents)]. *)
Definition inv_pow (base : Q) (exponents : list nat) : list Q :=
  map (fun e => 1 / base ^ Z.of_nat e) exponents.

End Np.

(** ** numpy_financial *)

Module Npf.

Fixpoint npv_from (rate : Q) (t : nat) (values : list Q) : Q :=
  match values with
  | [] => 0
  | v :: rest => v / (1 + rate) ^ Z.of_nat t + npv_from rate (S t) rest
  end.

(** Modelled from the spec: [npf.npv] belongs to the numpy_financial
    package, which is not part of the repository.  Section 4.3 gives it as
    the direct discounted sum of the values, the first one at exponent 0;
    the comment on line 110 says the same.  The model accumulates the terms
    in array order. *)
Definition npv (rate : Q) (values : list Q) : Q := npv_from rate 0 values.

End Npf.

(** ** The cash-flow table

    [df_cashflow] is a [pd.DataFrame] built from a dict of eight columns
    (lines 308-319).  The field names transliterate the column labels:
    ['Năm'], ['Doanh thu (R)'], ['Chi phí HĐ (C)'], ['Khấu hao (D)'],
    ['Lợi nhuận trước thuế (EBT)'], ['Thuế (Tax)'],
    ['Lợi nhuận sau thuế (EAT)'], ['Dòng tiền thuần (CF)']. *)
Record DataFrame : Type := mkDataFrame {
  col_Nam : list Z;
  col_DoanhThu : list Q;
  col_ChiPhiHD : list Q;
  col_KhauHao : list Q;
  col_EBT : list Q;
  col_Tax : list Q;
  col_EAT : list Q;
  col_CF : list Q
}.

(** The tuple [calculate_project_metrics] returns. *)
Record metrics : Type := mkMetrics {
  npv_value : Q;
  irr_value : npfloat;
  pp : payback;
  dpp : payback
}.

(** ** Messages and the event log *)

(** The texts the script shows, by the line that emits them. *)
Inductive message : Type :=
| MsgProjectLife        (* line 262: the project life must be a positive integer *)
| MsgConversion         (* line 266: the extracted data could not be converted *)
| MsgMetricsFailed      (* line 372: an error occurred while computing the metrics *)
| MsgWacc               (* line 374: WACC must be greater than 0 *)
| MsgIrr                (* line 378: IRR could not be computed *)
| MsgLifeAndInvestment. (* line 382: project life and investment are required *)

Inductive ui_event : Type :=
| StError (m : message)
| StWarning (m : message).

(** Writer monad over the event log. *)
Definition St (A : Type) : Type := (A * list ui_event)%type.

Definition ret {A : Type} (a : A) : St A := (a, []).

Definition bind {A B : Type} (c : St A) (k : A -> St B) : St B :=
  let (a, l1) := c in
  let (b, l2) := k a in
  (b, l1 ++ l2).

Notation "x <- c ;; k" := (bind c (fun x => k))
  (at level 61, c at next level, right associativity).
Notation "c ;; k" := (bind c (fun _ => k))
  (at level 61, right associativity).

Definition st_error (m : message) : St unit := (tt, [StError m]).
Definition st_warning (m : message) : St unit := (tt, [StWarning m]).

Definition result {A : Type} (c : St A) : A := fst c.
Definition events {A : Type} (c : St A) : list ui_event := snd c.

(** ** Reading the extracted parameters (lines 243-267) *)

(** An entry of the extracted series: a number, or a value [float()] and
    [int()] raise on ([None], free text). *)
Inductive raw : Type :=
| Numeric (x : Q)
| NonNumeric.

(** [st.session_state['extracted_data']], by key: ['Vốn đầu tư'],
    ['Dòng đời dự án'], ['Doanh thu hàng năm'],
    ['Chi phí hoạt động hàng năm'], ['WACC'], ['Thuế suất'].  [None] is an
    absent key. *)
Record extracted : Type := mkExtracted {
  VonDauTu : option raw;
  DongDoiDuAn : option raw;
  DoanhThuHangNam : option raw;
  ChiPhiHoatDongHangNam : option raw;
  WACC : option raw;
  ThueSuat : option raw
}.

(** [data.get(key, default)]. *)
Definition get (entry : option raw) (default : Q) : raw :=
  match entry with
  | Some v => v
  | None => Numeric default
  end.

(** [float(v)]; [None] stands for the exception. *)
Definition to_float (v : raw) : option Q :=
  match v with
  | Numeric x => Some x
  | NonNumeric => None
  end.

(** [int(v)]: truncation towards zero; [None] stands for the exception. *)
Definition to_int (v : raw) : option Z :=
  match v with
  | Numeric x => Some (Z.quot (Qnum x) (Z.pos (Qden x)))
  | NonNumeric => None
  end.

(** [x < y] as a test. *)
Definition Qltb (x y : Q) : bool := negb (Qle_bool y x).

(** The statement of lines 257 and 258, applied there to [wacc] and to
    [tax_rate]: [if v > 1 and v <= 100: v /= 100]. *)
Definition percent_to_fraction (v : Q) : Q :=
  if Qltb 1 v && Qle_bool v 100 then v / 100 else v.

(** The names bound when line 269 is reached.  [annual_revenue] and
    [annual_cost] are assigned only inside the [try]; the handler of line
    267 does not assign them, so they can be unbound ([None]). *)
Record locals : Type := mkLocals {
  initial_investment : Q;
  project_life : Z;
  annual_revenue : option Q;
  annual_cost : option Q;
  wacc : Q;
  tax_rate : Q
}.

(** The handler of lines 265-267. *)
Definition conversion_failed (revenue cost : option Q) : St locals :=
  st_error MsgConversion ;;
  ret (mkLocals 0 1 revenue cost 0.13 0.2).

(** Lines 247-267. *)
Definition read_parameters (data : extracted) : St locals :=
  match to_float (get (VonDauTu data) 0) with
  | None => conversion_failed None None
  | Some initial_investment =>
  match to_int (get (DongDoiDuAn data) 0) with
  | None => conversion_failed None None
  | Some project_life =>
  match to_float (get (DoanhThuHangNam data) 0) with
  | None => conversion_failed None None
  | Some annual_revenue =>
  match to_float (get (ChiPhiHoatDongHangNam data) 0) with
  | None => conversion_failed (Some annual_revenue) None
  | Some annual_cost =>
  match to_float (get (WACC data) 0.13) with
  | None => conversion_failed (Some annual_revenue) (Some annual_cost)
  | Some wacc =>
  match to_float (get (ThueSuat data) 0.20) with
  | None => conversion_failed (Some annual_revenue) (Some annual_cost)
  | Some tax_rate =>
      let wacc := percent_to_fraction wacc in
      let tax_rate := percent_to_fraction tax_rate in
      project_life <-
        (if (project_life <=? 0)%Z
         then st_error MsgProjectLife ;; ret 1%Z
         else ret project_life) ;;
      ret (mkLocals initial_investment project_life
             (Some annual_revenue) (Some annual_cost) wacc tax_rate)
  end end end end end end.

(** ** The cash-flow table (lines 297-319) *)

Definition cashflow_data
    (initial_investment : Q) (project_life : Z)
    (annual_revenue annual_cost tax_rate : Q) : DataFrame :=
  let depreciation := initial_investment / inject_Z project_life in
  let years := map Z.of_nat (Np.arange 1 (Z.to_nat (project_life + 1))) in
  let EBT := annual_revenue - annual_cost - depreciation in
  let Tax := if Qltb 0 EBT then EBT * tax_rate else 0 in
  let EAT := EBT - Tax in
  let CF := EAT + depreciation in
  let n := Z.to_nat project_life in
  {| col_Nam := years;
     col_DoanhThu := repeat annual_revenue n;
     col_ChiPhiHD := repeat annual_cost n;
     col_KhauHao := repeat depreciation n;
     col_EBT := repeat EBT n;
     col_Tax := repeat Tax n;
     col_EAT := repeat EAT n;
     col_CF := repeat CF n |}.

(** One line of the table, as the spec's CashFlowRow. *)
Record CashFlowRow : Type := mkRow {
  year : Z;
  revenue : Q;
  operatingCost : Q;
  depreciation : Q;
  ebt : Q;
  tax : Q;
  eat : Q;
  netCashFlow : Q
}.

(** [df.iloc[i]]. *)
Definition iloc (df : DataFrame) (i : nat) : option CashFlowRow :=
  match nth_error (col_Nam df) i, nth_error (col_DoanhThu df) i,
        nth_error (col_ChiPhiHD df) i, nth_error (col_KhauHao df) i,
        nth_error (col_EBT df) i, nth_error (col_Tax df) i,
        nth_error (col_EAT df) i, nth_error (col_CF df) i with
  | Some y, Some r, Some c, Some d, Some b, Some t, Some a, Some f =>
      Some (mkRow y r c d b t a f)
  | _, _, _, _, _, _, _, _ => None
  end.

(** [len(df)]. *)
Definition df_len (df : DataFrame) : nat := length (col_Nam df).

(** The dict of lines 336-341. *)
Record metrics_dict : Type := mkMetricsDict {
  md_NPV : Q;
  md_IRR : npfloat;
  md_PP : payback;
  md_DPP : payback
}.

(** An IRR as shown: a percentage, or ['Không tính được'] ("cannot be
    computed"). *)
Inductive irr_text : Type :=
| Percent (x : Q)
| KhongTinhDuoc.

(** Line 354, on the local [irr], and line 173, on [metrics_data['IRR']]:
    [f"{x:.2%}" if not np.isnan(x) else "Không tính được"]. *)
Definition irr_display (x : npfloat) : irr_text :=
  match x with
  | Num r => Percent r
  | NaN => KhongTinhDuoc
  end.

Section Appraisal.

(** Modelled from the spec: [npf.irr] is numpy_financial's root finder and
    is not part of the repository.  It is taken as a parameter; where a
    property depends on what it returns, the statement assumes [irr_sound]
    below, section 4.3's "the discount rate r such that
    sum F_i/(1+r)^i = 0" with a positive discount base. *)
Variable npf_irr : list Q -> irr_outcome.

(** Lines 100-158. *)
Definition calculate_project_metrics
    (df_cashflow : DataFrame) (initial_investment wacc : Q) : metrics :=
  let cash_flows := col_CF df_cashflow in
  let full_cash_flows := Np.insert0 cash_flows (- initial_investment) in
  (* 1. NPV *)
  let npv_value := Npf.npv wacc full_cash_flows in
  (* 2. IRR *)
  let irr_value :=
    match npf_irr full_cash_flows with
    | IrrReturn x => x
    | IrrValueError => NaN
    end in
  (* 3. PP *)
  let cumulative_cf := Np.cumsum full_cash_flows in
  let pp_year := Np.where_true (Np.ge0 cumulative_cf) in
  let pp :=
    match pp_year with
    | [] => KhongHoanVon
    | pp_year :: _ =>
        if Nat.eqb pp_year 0 then Years 0
        else
          let capital_remaining := Qabs (Np.item cumulative_cf (pp_year - 1)) in
          let cf_of_payback_year := Np.item full_cash_flows pp_year in
          if negb (Qeq_bool cf_of_payback_year 0)
          then Years (Qnat (pp_year - 1) + capital_remaining / cf_of_payback_year)
          else Years (Qnat pp_year)
    end in
  (* 4. DPP *)
  let discount_factors :=
    Np.inv_pow (1 + wacc) (Np.arange 0 (length full_cash_flows)) in
  let discounted_cf := Np.mul full_cash_flows discount_factors in
  let cumulative_dcf := Np.cumsum discounted_cf in
  let dpp_year := Np.where_true (Np.ge0 cumulative_dcf) in
  let dpp :=
    match dpp_year with
    | [] => KhongHoanVon
    | dpp_year :: _ =>
        if Nat.eqb dpp_year 0 then Years 0
        else
          let capital_remaining_d := Qabs (Np.item cumulative_dcf (dpp_year - 1)) in
          let dcf_of_payback_year := Np.item discounted_cf dpp_year in
          if negb (Qeq_bool dcf_of_payback_year 0)
          then Years (Qnat (dpp_year - 1) + capital_remaining_d / dcf_of_payback_year)
          else Years (Qnat dpp_year)
    end in
  mkMetrics npv_value irr_value pp dpp.

(** Lines 336-341. *)
Definition metrics_data (m : metrics) : metrics_dict :=
  {| md_NPV := npv_value m;
     md_IRR := if negb (np_isnan (irr_value m)) then irr_value m else Num 0;
     md_PP := pp m;
     md_DPP := dpp m |}.

(** What a run of lines 243-382 leaves behind. *)
Record run : Type := mkRun {
  run_locals : locals;
  run_df : option DataFrame;
  run_metrics : option metrics;
  run_metrics_data : option metrics_dict
}.

(** How the script ends: it runs to its last line, or an unbound name stops
    it ([NameError] is raised outside every [try]). *)
Inductive ending : Type :=
| Completed (r : run)
| NameError.

(** Lines 294-382, with every name bound.

    Lines 371-374 are read by their keywords: the handler
    [except Exception] closes the [try] of line 295 and [else] belongs to
    [if wacc > 0] (in the file their indentations are exchanged).  Nothing
    in the modelled [try] body raises, so the handler adds no event. *)
Definition appraise (v : locals) (annual_revenue annual_cost : Q) : St run :=
  if (0 <? project_life v)%Z && Qle_bool 0 (initial_investment v) then
    let df_cashflow :=
      cashflow_data (initial_investment v) (project_life v)
                    annual_revenue annual_cost (tax_rate v) in
    r <- (if Qltb 0 (wacc v) then
            let m := calculate_project_metrics df_cashflow
                       (initial_investment v) (wacc v) in
            ret (mkRun v (Some df_cashflow) (Some m) (Some (metrics_data m)))
          else
            st_warning MsgWacc ;;
            ret (mkRun v (Some df_cashflow) None None)) ;;
    (* line 377 *)
    (if Qltb 0 (wacc v) &&
        match run_metrics_data r with
        | Some d => np_isnan (md_IRR d)
        | None => false
        end
     then st_warning MsgIrr else ret tt) ;;
    ret r
  else
    st_warning MsgLifeAndInvestment ;;
    ret (mkRun v None None None).

(** Lines 243-382, once [extracted_data] is set.  Lines 285 and 286 read
    [annual_revenue] and [annual_cost]. *)
Definition main (data : extracted) : St ending :=
  v <- read_parameters data ;;
  match annual_revenue v, annual_cost v with
  | Some annual_revenue, Some annual_cost =>
      r <- appraise v annual_revenue annual_cost ;;
      ret (Completed r)
  | _, _ => ret NameError
  end.

End Appraisal.

(** ** Reference notions, in the spec's words *)

(** [Sigma lo n f] is the sum of [f i] for [i = lo .. lo + n - 1]. *)
Fixpoint Sigma (lo n : nat) (f : nat -> Q) : Q :=
  match n with
  | O => 0
  | S k => f lo + Sigma (S lo) k f
  end.

(** The full cash-flow vector [F = [-initialInvestment, CF_1, ..., CF_N]]. *)
Definition full_vector (df : DataFrame) (C0 : Q) : list Q := - C0 :: col_CF df.

(** [F_i], zero past the horizon. *)
Definition flow (F : list Q) (i : nat) : Q := nth i F 0.

(** The discounted sum of section 4.3: the sum over [i = 0..N] of
    [F_i / (1+r)^i]. *)
Definition discounted_sum (F : list Q) (r : Q) : Q :=
  Sigma 0 (length F) (fun i => flow F i / (1 + r) ^ Z.of_nat i).


(** The cumulative sum of [F_0 .. F_y]. *)
Definition cum (F : list Q) (y : nat) : Q := Sigma 0 (S y) (flow F).

(** [y] is the payback year of [F]: the smallest index whose cumulative sum
    is not negative. *)
Definition payback_year (F : list Q) (y : nat) : Prop :=
  (y < length F)%nat /\ 0 <= cum F y /\ forall j, (j < y)%nat -> cum F j < 0.

(** The payback rule of section 4.3, case by case. *)
Inductive payback_rule (F : list Q) : payback -> Prop :=
| rule_year0 t :
    payback_year F 0 -> t == 0 ->
    payback_rule F (Years t)
| rule_interpolate y t :
    payback_year F (S y) -> ~ flow F (S y) == 0 ->
    t == Qnat y + Qabs (cum F y) / flow F (S y) ->
    payback_rule F (Years t)
| rule_zero_flow y t :
    payback_year F (S y) -> flow F (S y) == 0 ->
    t == Qnat (S y) ->
    payback_rule F (Years t)
| rule_never :
    (forall y, (y < length F)%nat -> cum F y < 0) ->
    payback_rule F KhongHoanVon.

(** Payback results up to the value of the number. *)
Definition payback_eq (a b : payback) : Prop :=
  match a, b with
  | Years s, Years t => s == t
  | KhongHoanVon, KhongHoanVon => True
  | _, _ => False
  end.

(** A sign change: a strictly negative value followed by a later strictly
    positive one, or the other way round. *)
Definition sign_change (F : list Q) : Prop :=
  exists i j, (i < j < length F)%nat /\
    (flow F i < 0 /\ 0 < flow F j \/ 0 < flow F i /\ flow F j < 0).

(** Modelled from the spec: the contract assumed of [npf.irr] (section 4.3,
    "the discount rate r such that sum F_i/(1+r)^i = 0"): a rate it returns
    has a positive discount base and makes the discounted sum vanish. *)
Definition irr_sound (npf_irr : list Q -> irr_outcome) : Prop :=
  forall F r, npf_irr F = IrrReturn (Num r) ->
    0 < 1 + r /\ Npf.npv r F == 0.

(** The rate of a two-entry vector in closed form: [F_0 + F_1/(1+r) = 0]
    gives [1 + r = - F_1 / F_0] when the two entries have opposite signs.
    On every other vector this solver reports [nan].  It is the instance of
    [npf_irr] the examples run with. *)
Definition irr_two_flows (F : list Q) : irr_outcome :=
  match F with
  | [a; b] =>
      if (Qltb a 0 && Qltb 0 b) || (Qltb 0 a && Qltb b 0)
      then IrrReturn (Num (- b / a - 1))
      else IrrReturn NaN
  | _ => IrrReturn NaN
  end.

(** The two payback blocks of [calculate_project_metrics] have one shape:
    lines 122-136 on [full_cash_flows] and [cumulative_cf], lines 143-156 on
    [discounted_cf] and [cumulative_dcf]. *)
Definition payback_block (flows cumulative : list Q) : payback :=
  match Np.where_true (Np.ge0 cumulative) with
  | [] => KhongHoanVon
  | y :: _ =>
      if Nat.eqb y 0 then Years 0
      else
        if negb (Qeq_bool (Np.item flows y) 0)
        then Years (Qnat (y - 1) + Qabs (Np.item cumulative (y - 1)) / Np.item flows y)
        else Years (Qnat y)
  end.

(** Two vectors of one length whose entries are equal as numbers. *)
Definition same_flows (F G : list Q) : Prop :=
  length F = length G /\ forall i, flow F i == flow G i.

(** Line 139-140 as a function of the vector and the rate. *)
Definition discounted_cf (F : list Q) (wacc : Q) : list Q :=
  Np.mul F (Np.inv_pow (1 + wacc) (Np.arange 0 (length F))).


(** What the spec's CashFlowRow invariant says of a row. *)
Definition row_invariant (I : Q) (N : Z) (R C rate : Q) (row : CashFlowRow) : Prop :=
  revenue row = R /\ operatingCost row = C /\
  depreciation row == I / inject_Z N /\
  ebt row == revenue row - operatingCost row - depreciation row /\
  tax row == Qmax (ebt row) 0 * rate /\
  eat row == ebt row - tax row /\
  netCashFlow row == eat row + depreciation row.

(** Two rows that differ in the year at most. *)
Definition same_but_year (a b : CashFlowRow) : Prop :=
  revenue a = revenue b /\ operatingCost a = operatingCost b /\
  depreciation a = depreciation b /\ ebt a = ebt b /\ tax a = tax b /\
  eat a = eat b /\ netCashFlow a = netCashFlow b.

(** What lines 257-258 do to a raw rate [v], case by case. *)
Definition normalised_as (v out : Q) : Prop :=
  (1 < v /\ v <= 100 -> out = v / 100) /\
  (v <= 1 -> out = v) /\
  (100 < v -> out = v).

(** ** Inputs used in the examples *)

(** Section 8's end-to-end scenario. *)
Definition scenario : extracted :=
  mkExtracted (Some (Numeric 30000000000)) (Some (Numeric 5))
              (Some (Numeric 15000000000)) (Some (Numeric 6000000000))
              (Some (Numeric 0.13)) (Some (Numeric 0.20)).

Definition scenario_locals : locals :=
  mkLocals 30000000000 5 (Some 15000000000) (Some 6000000000) 0.13 0.20.

(** The same scenario with WACC given as the percentage 13. *)
Definition percent_data : extracted :=
  mkExtracted (Some (Numeric 30000000000)) (Some (Numeric 5))
              (Some (Numeric 15000000000)) (Some (Numeric 6000000000))
              (Some (Numeric 13)) (Some (Numeric 0.20)).

(** Section 8's payback boundary: an outlay of 1000 and three yearly flows
    of 500. *)
Definition boundary_df : DataFrame := cashflow_data 1000 3 500 0 0.

(** A project that loses money every year: outlay 1000, two years, no
    revenue, yearly cost 100; its flows are [-1000, -100, -100]. *)
Definition loss_df : DataFrame := cashflow_data 1000 2 0 100 0.2.

(** A project life of 0. *)
Definition zero_life_data : extracted :=
  mkExtracted (Some (Numeric 1000)) (Some (Numeric 0))
              (Some (Numeric 500)) (Some (Numeric 0))
              (Some (Numeric 0.13)) (Some (Numeric 0.20)).

(** A WACC of 0. *)
Definition zero_wacc_locals : locals :=
  mkLocals 1000 3 (Some 500) (Some 0) 0 0.20.

(** ** Text, and the reply of the extraction service (lines 86-91) *)

(** A Python [str], as the bytes of its UTF-8 encoding.  Prefix and suffix
    tests agree on bytes and on characters, and the two slices below cut at
    ASCII characters only. *)
Definition text : Type := list ascii.

Definition lit (s : string) : text := list_ascii_of_string s.

(** [s.startswith(p)]. *)
Fixpoint startswith (p s : text) : bool :=
  match p, s with
  | [], _ => true
  | a :: p', b :: s' => Ascii.eqb a b && startswith p' s'
  | _ :: _, [] => false
  end.

(** [s.endswith(p)]. *)
Definition endswith (p s : text) : bool := startswith (rev p) (rev s).

(** [sep.join(parts)]. *)
Fixpoint join (sep : text) (parts : list text) : text :=
  match parts with
  | [] => []
  | [x] => x
  | x :: rest => x ++ sep ++ join sep rest
  end.

Definition fence_json : text := lit "```json".
Definition fence : text := lit "```".

(** Lines 88-91: [json_str[7:]] after an opening fence tagged json, then
    [json_str[:-3]] before a closing fence. *)
Definition strip_fences (json_str : text) : text :=
  let json_str :=
    if startswith fence_json json_str then skipn 7 json_str else json_str in
  if endswith fence json_str
  then firstn (length json_str - 3) json_str
  else json_str.

(** ** Currency display (lines 273-279) *)

Inductive vnd_unit : Type :=
| TyVND      (* "tỷ VNĐ", billions *)
| TrieuVND   (* "triệu VNĐ", millions *)
| VND.

(** An f-string field [{shown:,.<decimals>f}] followed by its unit; the
    digits are left to the format. *)
Record vnd_display : Type := mkDisplay {
  shown : Q;
  decimals : nat;
  vnd : vnd_unit
}.

Definition format_vnd (value : Q) : vnd_display :=
  if Qle_bool (10 ^ 9) (Qabs value) then mkDisplay (value / 10 ^ 9) 2 TyVND
  else if Qle_bool (10 ^ 6) (Qabs value) then mkDisplay (value / 10 ^ 6) 0 TrieuVND
  else mkDisplay value 0 VND.

(** ** Upload and extraction (lines 22-97 and 204-240) *)

(** An exception that reaches a handler of the script. *)
Inductive exn : Type :=
| APIError (msg : text)
| ValueError (msg : text)
| UnboundLocalError (name : text)
| OtherError (msg : text).

(** What the upper part of the script shows, by line. *)
Inductive notice : Type :=
| NoSecret                      (* line 210, st.error *)
| ReadFailed (doc_text : text)  (* line 231, st.error(doc_text) *)
| ExtractionDone                (* line 234, st.success *)
| ApiFailed                     (* line 236, st.error *)
| ExtractionFailed (e : exn)    (* line 238, st.error with the exception *)
| KeyNeeded                     (* line 240, st.error *)
| InvalidJson (reply : text)    (* line 96, st.error with response.text *)
| UploadFirst.                  (* line 385, st.info *)

(** The trace of one run of the script: what is shown, each request to the
    extraction service, and the events of lines 243-382. *)
Inductive script_event : Type :=
| Notice (n : notice)
| Request (doc_text : text)
| Flow (e : ui_event).

(** What one run is given: the secret ['GEMINI_API_KEY'], the uploaded
    file's bytes and whether the extraction button was clicked. *)
Record inputs : Type := mkInputs {
  secret : option text;
  uploaded_file : option text;
  extract_clicked : bool
}.

(** What one run leaves: its trace, [st.session_state['extracted_data']] and
    how lines 243-382 ended when they ran. *)
Record script_run : Type := mkScriptRun {
  trace : list script_event;
  session : option extracted;
  flow_ending : option ending
}.

(** [not api_key] is false for a non-empty string only. *)
Definition truthy (api_key : option text) : bool :=
  match api_key with
  | Some (_ :: _) => true
  | _ => false
  end.

Definition read_error_prefix : text := lit "Lỗi đọc file Word".

Section Script.

(** The collaborators outside the repository: python-docx's paragraphs of a
    file (or the message of the exception it raises), the extraction
    service's reply to the prompt built around [doc_text] (or the exception
    raised), [pd.read_json] on the cleaned reply (or the message of its
    [ValueError]), [str.strip], and [npf.irr]. *)
Variable docx_paragraphs : text -> text + list text.
Variable generate_content : text -> exn + text.
Variable pd_read_json : text -> text + extracted.
Variable py_strip : text -> text.
Variable npf_irr : list Q -> irr_outcome.

(** Lines 24-35. *)
Definition read_docx_file (uploaded_file : text) : text :=
  match docx_paragraphs uploaded_file with
  | inr full_text => join (lit "
") full_text
  | inl e => lit "Lỗi đọc file Word: " ++ e
  end.

(** Lines 39-97.  [genai.Client] only builds the client.  When
    [generate_content] raises, the handler of line 94 formats
    [response.text] although [response] was never assigned: evaluating the
    f-string raises [UnboundLocalError] before [st.error] is called, and
    that exception leaves the function. *)
Definition extract_financial_data (doc_text : text) (api_key : option text)
  : list script_event * (exn + extracted) :=
  if negb (truthy api_key)
  then ([], inl (ValueError (lit "Khóa API không được cung cấp.")))
  else
    match generate_content doc_text with
    | inl _ => ([Request doc_text], inl (UnboundLocalError (lit "response")))
    | inr response_text =>
        let json_str := strip_fences (py_strip response_text) in
        match pd_read_json json_str with
        | inr series => ([Request doc_text], inr series)
        | inl msg =>
            ([Request doc_text; Notice (InvalidJson response_text)],
             inl (ValueError msg))
        end
    end.

(** Lines 207-240: the events and the new session state. *)
Definition upload_and_extract (i : inputs) (extracted_data : option extracted)
  : list script_event * option extracted :=
  let api_key := secret i in
  let shown_first := if negb (truthy api_key) then [Notice NoSecret] else [] in
  match uploaded_file i with
  | None => (shown_first, extracted_data)
  | Some file =>
      let doc_text := read_docx_file file in
      if extract_clicked i then
        if truthy api_key then
          if startswith read_error_prefix doc_text
          then (shown_first ++ [Notice (ReadFailed doc_text)], extracted_data)
          else
            match extract_financial_data doc_text api_key with
            | (evs, inr series) =>
                (shown_first ++ evs ++ [Notice ExtractionDone], Some series)
            | (evs, inl (APIError _)) =>
                (shown_first ++ evs ++ [Notice ApiFailed], extracted_data)
            | (evs, inl e) =>
                (shown_first ++ evs ++ [Notice (ExtractionFailed e)],
                 extracted_data)
            end
        else (shown_first ++ [Notice KeyNeeded], extracted_data)
      else (shown_first, extracted_data)
  end.

(** One run of the script, lines 204-385, from the session state the
    previous run left. *)
Definition script (i : inputs) (extracted_data : option extracted) : script_run :=
  let (evs, extracted_data) := upload_and_extract i extracted_data in
  match extracted_data with
  | Some data =>
      let (e, flow_events) := main npf_irr data in
      mkScriptRun (evs ++ map Flow flow_events) (Some data) (Some e)
  | None =>
      mkScriptRun (evs ++ [Notice UploadFirst]) None None
  end.

End Script.

(** ** Collaborators and inputs used in the further examples *)

(** A readable file of two paragraphs, and a file python-docx rejects. *)
Definition docx_plan : text -> text + list text :=
  fun _ => inr [lit "Business plan"; lit "Investment: 30 billion"].

Definition docx_broken : text -> text + list text :=
  fun _ => inl (lit "File is not a zip file").

(** A service that is down, and one that answers with a fenced block. *)
Definition service_down : text -> exn + text :=
  fun _ => inl (APIError (lit "503 UNAVAILABLE")).

Definition service_fenced : text -> exn + text :=
  fun _ => inr (fence_json ++ lit "{}" ++ fence).

(** A parser that yields section 8's scenario, and [strip] on a text
    without surrounding blanks. *)
Definition read_json_scenario : text -> text + extracted :=
  fun _ => inr scenario.

Definition strip_nothing : text -> text := fun s => s.

(** A run with key, file and click, and a rerun with nothing clicked. *)
Definition clicked : inputs :=
  mkInputs (Some (lit "key")) (Some (lit "PK")) true.

Definition idle : inputs := mkInputs (Some (lit "key")) None false.

(** Extracted data whose revenue is text, and data whose WACC is text. *)
Definition bad_revenue : extracted :=
  mkExtracted (Some (Numeric 1000)) (Some (Numeric 3)) (Some NonNumeric)
              (Some (Numeric 0)) (Some (Numeric 0.13)) (Some (Numeric 0.20)).

Definition bad_rate : extracted :=
  mkExtracted (Some (Numeric 1000)) (Some (Numeric 3)) (Some (Numeric 500))
              (Some (Numeric 0)) (Some NonNumeric) (Some (Numeric 0.20)).

(** Data without the project-life key. *)
Definition no_life : extracted :=
  mkExtracted (Some (Numeric 1000)) None (Some (Numeric 500))
              (Some (Numeric 0)) (Some (Numeric 0.13)) (Some (Numeric 0.20)).

(** A project life of one half. *)
Definition half_life : extracted :=
  mkExtracted (Some (Numeric 1000)) (Some (Numeric (1 # 2))) (Some (Numeric 500))
              (Some (Numeric 0)) (Some (Numeric 0.13)) (Some (Numeric 0.20)).

(** ** The payback blocks in the arithmetic of the machine

    The model above computes in exact rationals.  Lines 104-107 and 120-156
    are embedded here once more over an arbitrary arithmetic, of which no law
    is assumed: binary64 with its rounding, signed zeros, [inf] and [nan] is
    an instance, and so are the exact rationals, where this embedding is the
    model above. *)

Module Machine.

(** The operations the two blocks apply to numbers. *)
Record arithmetic : Type := mkArithmetic {
  num : Type;
  zero : num;                  (* 0.0 *)
  one : num;                   (* the 1 of [1 + wacc] and [1 / ...] *)
  add : num -> num -> num;
  mul : num -> num -> num;
  div : num -> num -> num;
  neg : num -> num;            (* unary minus *)
  absolute : num -> num;       (* abs *)
  power : num -> nat -> num;   (* base ** exponent *)
  of_int : nat -> num;         (* an index as a float *)
  ge0 : num -> bool;           (* x >= 0 *)
  ne0 : num -> bool            (* x != 0 *)
}.

(** A payback period: a number, or the string ['Không hoàn vốn']. *)
Inductive period (T : Type) : Type :=
| Finite (t : T)
| NoPayback.

Arguments Finite {T} t.
Arguments NoPayback {T}.

Section Over.

Variable A : arithmetic.

Fixpoint cumsum_from (acc : num A) (a : list (num A)) : list (num A) :=
  match a with
  | [] => []
  | x :: rest => add A acc x :: cumsum_from (add A acc x) rest
  end.

(** [np.cumsum(a)]: each total is the previous total plus the next entry,
    rounded as the arithmetic rounds. *)
Definition cumsum (a : list (num A)) : list (num A) :=
  match a with
  | [] => []
  | x :: rest => x :: cumsum_from x rest
  end.

(** [a[i]] for an index within bounds. *)
Definition item (a : list (num A)) (i : nat) : num A := nth i a (zero A).

(** [a * b] on arrays of one length. *)
Fixpoint times (a b : list (num A)) : list (num A) :=
  match a, b with
  | x :: a', y :: b' => mul A x y :: times a' b'
  | _, _ => []
  end.

(** [1 / (base ** exponents)]. *)
Definition inv_pow (base : num A) (exponents : list nat) : list (num A) :=
  map (fun e => div A (one A) (power A base e)) exponents.

(** Lines 139-140: [discounted_cf] for the full vector [F]. *)
Definition discounted_cf (F : list (num A)) (wacc : num A) : list (num A) :=
  times F (inv_pow (add A (one A) wacc) (Np.arange 0 (length F))).

(** Lines 104-107 and 120-156: the pair [(pp, dpp)]. *)
Definition payback_periods
    (cash_flows : list (num A)) (initial_investment wacc : num A)
  : period (num A) * period (num A) :=
  let full_cash_flows := neg A initial_investment :: cash_flows in
  (* 3. PP *)
  let cumulative_cf := cumsum full_cash_flows in
  let pp_year := Np.where_true (map (ge0 A) cumulative_cf) in
  let pp :=
    match pp_year with
    | [] => NoPayback
    | pp_year :: _ =>
        if Nat.eqb pp_year 0 then Finite (zero A)
        else
          let capital_remaining := absolute A (item cumulative_cf (pp_year - 1)) in
          let cf_of_payback_year := item full_cash_flows pp_year in
          if ne0 A cf_of_payback_year
          then Finite (add A (of_int A (pp_year - 1))
                         (div A capital_remaining cf_of_payback_year))
          else Finite (of_int A pp_year)
    end in
  (* 4. DPP *)
  let discount_factors :=
    inv_pow (add A (one A) wacc) (Np.arange 0 (length full_cash_flows)) in
  let discounted_cf := times full_cash_flows discount_factors in
  let cumulative_dcf := cumsum discounted_cf in
  let dpp_year := Np.where_true (map (ge0 A) cumulative_dcf) in
  let dpp :=
    match dpp_year with
    | [] => NoPayback
    | dpp_year :: _ =>
        if Nat.eqb dpp_year 0 then Finite (zero A)
        else
          let capital_remaining_d := absolute A (item cumulative_dcf (dpp_year - 1)) in
          let dcf_of_payback_year := item discounted_cf dpp_year in
          if ne0 A dcf_of_payback_year
          then Finite (add A (of_int A (dpp_year - 1))
                         (div A capital_remaining_d dcf_of_payback_year))
          else Finite (of_int A dpp_year)
    end in
  (pp, dpp).

(** The cumulative sum of [F_0 .. F_y] as the machine accumulates it, from
    the left. *)
Fixpoint running_total (F : list (num A)) (y : nat) : num A :=
  match y with
  | O => item F 0
  | S k => add A (running_total F k) (item F (S k))
  end.

(** [y] is the payback year of [F]: the smallest index whose running total
    passes the test [>= 0]. *)
Definition payback_year (F : list (num A)) (y : nat) : Prop :=
  (y < length F)%nat /\ ge0 A (running_total F y) = true /\
  forall j, (j < y)%nat -> ge0 A (running_total F j) = false.

(** The payback rule of section 4.3, case by case, every operation being
    the machine's. *)
Inductive payback_rule (F : list (num A)) : period (num A) -> Prop :=
| rule_year0 :
    payback_year F 0 ->
    payback_rule F (Finite (zero A))
| rule_interpolate y :
    payback_year F (S y) -> ne0 A (item F (S y)) = true ->
    payback_rule F
      (Finite (add A (of_int A y)
                 (div A (absolute A (running_total F y)) (item F (S y)))))
| rule_zero_flow y :
    payback_year F (S y) -> ne0 A (item F (S y)) = false ->
    payback_rule F (Finite (of_int A (S y)))
| rule_never :
    (forall y, (y < length F)%nat -> ge0 A (running_total F y) = false) ->
    payback_rule F NoPayback.

(** The shape the two blocks share, on a vector of flows. *)
Definition payback_block (flows : list (num A)) : period (num A) :=
  match Np.where_true (map (ge0 A) (cumsum flows)) with
  | [] => NoPayback
  | y :: _ =>
      if Nat.eqb y 0 then Finite (zero A)
      else
        if ne0 A (item flows y)
        then Finite (add A (of_int A (y - 1))
                       (div A (absolute A (item (cumsum flows) (y - 1)))
                          (item flows y)))
        else Finite (of_int A y)
  end.

(** The vector claim C4 names: entry [i] is [F_i / (1+wacc)^i]. *)
Definition divided (F : list (num A)) (wacc : num A) : list (num A) :=
  map (fun i => div A (item F i) (power A (add A (one A) wacc) i))
      (seq 0 (length F)).

End Over.

(** Exact rationals: the arithmetic of the model above. *)
Definition exact : arithmetic :=
  {| num := Q; zero := 0; one := 1;
     add := Qplus; mul := Qmult; div := Qdiv; neg := Qopp; absolute := Qabs;
     power := fun base e => base ^ Z.of_nat e;
     of_int := Qnat;
     ge0 := fun x => Qle_bool 0 x;
     ne0 := fun x => negb (Qeq_bool x 0) |}.

Fixpoint float_power (base : float) (e : nat) : float :=
  match e with
  | O => 1%float
  | S k => PrimFloat.mul base (float_power base k)
  end.

(** IEEE 754 binary64, the [float64] of NumPy and the [float] of Python,
    rounding to nearest even.  NumPy takes powers with C's [pow]; for the
    exponents 0 and 1 it returns 1 and the base exactly, as [float_power]
    does, and the examples on discounted flows use no other exponent. *)
Definition binary64 : arithmetic :=
  {| num := float; zero := 0%float; one := 1%float;
     add := PrimFloat.add; mul := PrimFloat.mul; div := PrimFloat.div;
     neg := PrimFloat.opp; absolute := PrimFloat.abs;
     power := float_power;
     of_int := fun n => PrimFloat.of_uint63 (Uint63.of_Z (Z.of_nat n));
     ge0 := fun x => PrimFloat.leb 0%float x;
     ne0 := fun x => negb (PrimFloat.eqb x 0%float) |}.

End Machine.

(** A payback result of the rational model, as a period. *)
Definition to_period (p : payback) : Machine.period Q :=
  match p with
  | Years t => Machine.Finite t
  | KhongHoanVon => Machine.NoPayback
  end.

(** ** The two repairs of lines 371-374

    As written, [except] stands at the column of [if wacc > 0] and [else] at
    the column of [try], which does not parse.  [ElseOfIf] is the reading of
    [appraise]: [except] closes the [try] and [else] belongs to
    [if wacc > 0].  [ElseOfTry] moves [except] alone to the column of [try]:
    the [else] then belongs to the [try] and runs whenever its body raised
    nothing. *)
Inductive repair : Type :=
| ElseOfIf
| ElseOfTry.

Section Repairs.

Variable npf_irr : list Q -> irr_outcome.

(** Lines 294-382 under a repair, in a run where the analysis button of
    line 362 is not pressed (lines 363-369 are not executed). *)
Definition appraise_under (rp : repair) (v : locals)
    (annual_revenue annual_cost : Q) : St run :=
  if (0 <? project_life v)%Z && Qle_bool 0 (initial_investment v) then
    let df_cashflow :=
      cashflow_data (initial_investment v) (project_life v)
                    annual_revenue annual_cost (tax_rate v) in
    r <- (if Qltb 0 (wacc v) then
            let m := calculate_project_metrics npf_irr df_cashflow
                       (initial_investment v) (wacc v) in
            ret (mkRun v (Some df_cashflow) (Some m) (Some (metrics_data m)))
          else
            match rp with
            | ElseOfIf =>
                st_warning MsgWacc ;;
                ret (mkRun v (Some df_cashflow) None None)
            | ElseOfTry => ret (mkRun v (Some df_cashflow) None None)
            end) ;;
    (* the else of the try *)
    match rp with
    | ElseOfIf => ret tt
    | ElseOfTry => st_warning MsgWacc
    end ;;
    (* line 377 *)
    (if Qltb 0 (wacc v) &&
        match run_metrics_data r with
        | Some d => np_isnan (md_IRR d)
        | None => false
        end
     then st_warning MsgIrr else ret tt) ;;
    ret r
  else
    st_warning MsgLifeAndInvestment ;;
    ret (mkRun v None None None).

(** Lines 243-382 under a repair. *)
Definition main_under (rp : repair) (data : extracted) : St ending :=
  v <- read_parameters data ;;
  match annual_revenue v, annual_cost v with
  | Some annual_revenue, Some annual_cost =>
      r <- appraise_under rp v annual_revenue annual_cost ;;
      ret (Completed r)
  | _, _ => ret NameError
  end.

End Repairs.

(** Modelled from the spec: the other contract of [npf.irr] (section 4.3,
    "Precondition for a solution to exist: the vector must contain at least
    one sign change"): it returns a rate only for a vector with a sign
    change. *)
Definition irr_needs_sign_change (npf_irr : list Q -> irr_outcome) : Prop :=
  forall F r, npf_irr F = IrrReturn (Num r) -> sign_change F.

(** A project life of 0 next to a revenue that is text. *)
Definition zero_life_text_revenue : extracted :=
  mkExtracted (Some (Numeric 1000)) (Some (Numeric 0)) (Some NonNumeric)
              (Some (Numeric 0)) (Some (Numeric 0.13)) (Some (Numeric 0.20)).

(** A project life of 0 next to a WACC that is text. *)
Definition zero_life_text_rate : extracted :=
  mkExtracted (Some (Numeric 1000)) (Some (Numeric 0)) (Some (Numeric 500))
              (Some (Numeric 0)) (Some NonNumeric) (Some (Numeric 0.20)).

(** * Properties *)

(** ** Arithmetic helpers *)

Lemma Qltb_lt (x y : Q) : Qltb x y = true <-> x < y.
Proof.
  unfold Qltb. rewrite negb_true_iff.
  split; intro H.
  - apply Qnot_le_lt. intro Hle. apply Qle_bool_iff in Hle. congruence.
  - destruct (Qle_bool y x) eqn:E; [|reflexivity].
    apply Qle_bool_iff in E. exfalso. apply (Qlt_not_le _ _ H E).
Qed.

Lemma Qltb_ge (x y : Q) : Qltb x y = false <-> y <= x.
Proof.
  unfold Qltb. rewrite negb_false_iff. apply Qle_bool_iff.
Qed.

Lemma Sigma_ext (f g : nat -> Q) (n lo : nat) :
  (forall i, (lo <= i < lo + n)%nat -> f i == g i) ->
  Sigma lo n f == Sigma lo n g.
Proof.
  revert lo. induction n as [|n IH]; intros lo H; simpl.
  - reflexivity.
  - rewrite (H lo) by lia. rewrite (IH (S lo)); [reflexivity|].
    intros i Hi. apply H. lia.
Qed.





(** ** Net present value *)

Lemma npv_from_Sigma (rate : Q) (values : list Q) (t : nat) :
  Npf.npv_from rate t values ==
  Sigma t (length values) (fun i => flow values (i - t) / (1 + rate) ^ Z.of_nat i).
Proof.
  revert t. induction values as [|v rest IH]; intro t; simpl.
  - reflexivity.
  - rewrite IH. unfold flow at 2. rewrite Nat.sub_diag. simpl nth.
    apply Qplus_comp; [reflexivity|].
    apply Sigma_ext. intros i Hi. unfold flow.
    replace (i - t)%nat with (S (i - S t)) by lia. reflexivity.
Qed.

Lemma npv_discounted_sum (rate : Q) (values : list Q) :
  Npf.npv rate values == discounted_sum values rate.
Proof.
  unfold Npf.npv, discounted_sum. rewrite npv_from_Sigma.
  apply Sigma_ext. intros i _. rewrite Nat.sub_0_r. reflexivity.
Qed.

(** ** Cumulative sums and the first non-negative position *)








(** ** Vectors with equal entries *)

Lemma same_flows_cum (F G : list Q) (y : nat) :
  same_flows F G -> cum F y == cum G y.
Proof.
  intros [_ H]. unfold cum. apply Sigma_ext. intros i _. apply H.
Qed.

Lemma same_flows_payback_year (F G : list Q) (y : nat) :
  same_flows F G -> payback_year F y -> payback_year G y.
Proof.
  intros HFG (Hy & Hge & Hlt). destruct HFG as [Hlen Hfl].
  assert (HFG : same_flows F G) by (split; assumption).
  repeat split.
  - now rewrite <- Hlen.
  - now rewrite <- (same_flows_cum F G y HFG).
  - intros j Hj. rewrite <- (same_flows_cum F G j HFG). now apply Hlt.
Qed.

Lemma same_flows_rule (F G : list Q) (p : payback) :
  same_flows F G -> payback_rule F p -> payback_rule G p.
Proof.
  intros HFG H. assert (Hfl := proj2 HFG).
  destruct H as [t Hy Ht | y t Hy Hnz Ht | y t Hy Hz Ht | Hall].
  - apply rule_year0; [|exact Ht]. now apply (same_flows_payback_year F G).
  - apply (rule_interpolate G y).
    + now apply (same_flows_payback_year F G).
    + now rewrite <- (Hfl (S y)).
    + now rewrite <- (Hfl (S y)), <- (same_flows_cum F G y HFG).
  - apply (rule_zero_flow G y).
    + now apply (same_flows_payback_year F G).
    + now rewrite <- (Hfl (S y)).
    + exact Ht.
  - apply rule_never. intros y Hy.
    rewrite <- (same_flows_cum F G y HFG). apply Hall.
    now rewrite (proj1 HFG).
Qed.



(** ** The discounted vector *)








(** ** The payback year's cash flow *)







(** ** The metrics function, part by part *)

Section MetricsParts.

Variable npf_irr : list Q -> irr_outcome.
Variables (df : DataFrame) (C0 wacc : Q).

Let m := calculate_project_metrics npf_irr df C0 wacc.
Let F := full_vector df C0.

Lemma npv_value_eq : npv_value m = Npf.npv wacc F.
Proof. reflexivity. Qed.

Lemma irr_value_eq :
  irr_value m = match npf_irr F with IrrReturn x => x | IrrValueError => NaN end.
Proof. reflexivity. Qed.



End MetricsParts.

(** ** Claims on the metrics *)

(** C1.  For a rate [wacc > 0] the NPV returned by
    [calculate_project_metrics] is the sum over [i = 0..N] of
    [F_i / (1+wacc)^i] for [F = [-C0, CF_1, ..., CF_N]]; the year-0 term has
    divisor 1, so the NPV is [-C0] plus the discounted yearly flows. *)
Theorem npv_is_discounted_sum
    (npf_irr : list Q -> irr_outcome) (df : DataFrame) (C0 wacc : Q) :
  0 < wacc ->
  let F := full_vector df C0 in
  let N := length (col_CF df) in
  let npv := npv_value (calculate_project_metrics npf_irr df C0 wacc) in
  npv == Sigma 0 (S N) (fun i => flow F i / (1 + wacc) ^ Z.of_nat i) /\
  flow F 0 / (1 + wacc) ^ Z.of_nat 0 == - C0 /\
  npv == - C0 + Sigma 1 N (fun i => flow (col_CF df) (i - 1) / (1 + wacc) ^ Z.of_nat i).
Proof.
  intros _ F N npv. subst npv. rewrite npv_value_eq.
  fold F. rewrite npv_discounted_sum. unfold discounted_sum.
  assert (HN : length F = S N) by reflexivity. rewrite HN.
  split; [reflexivity|].
  split; [unfold F, full_vector, flow; simpl; field|].
  change (Sigma 0 (S N) (fun i => flow F i / (1 + wacc) ^ Z.of_nat i))
    with (flow F 0 / (1 + wacc) ^ Z.of_nat 0
          + Sigma 1 N (fun i => flow F i / (1 + wacc) ^ Z.of_nat i)).
  apply Qplus_comp.
  - unfold F, full_vector, flow. simpl. field.
  - apply Sigma_ext. intros i Hi. unfold F, full_vector, flow.
    replace i with (S (i - 1)) at 1 by lia. reflexivity.
Qed.


(** ** Vectors without a sign change have no rate of return *)

Lemma npv_from_nonneg (r : Q) (F : list Q) (t : nat) :
  0 < 1 + r -> Forall (fun x => 0 <= x) F -> 0 <= Npf.npv_from r t F.
Proof.
  intros Hr HF. revert t. induction HF as [|x F Hx _ IH]; intro t; simpl.
  - lra.
  - assert (Hp : 0 < (1 + r) ^ Z.of_nat t) by now apply Qpower_0_lt.
    assert (H0 : 0 <= x / (1 + r) ^ Z.of_nat t).
    { apply Qle_shift_div_l; [exact Hp | lra]. }
    specialize (IH (S t)). lra.
Qed.

Lemma npv_from_pos (r : Q) (F : list Q) (t : nat) :
  0 < 1 + r -> Forall (fun x => 0 <= x) F -> Exists (fun x => ~ x == 0) F ->
  0 < Npf.npv_from r t F.
Proof.
  intros Hr HF HE. revert t.
  induction HF as [|x F Hx HF IH]; intro t; simpl.
  - inversion HE.
  - assert (Hp : 0 < (1 + r) ^ Z.of_nat t) by now apply Qpower_0_lt.
    assert (Hrest := npv_from_nonneg r F (S t) Hr HF).
    destruct (Qeq_dec x 0) as [Hz | Hnz].
    + assert (HE' : Exists (fun x => ~ x == 0) F).
      { inversion HE; subst; [contradiction | assumption]. }
      specialize (IH HE' (S t)). rewrite Hz. unfold Qdiv. lra.
    + assert (H0 : 0 < x / (1 + r) ^ Z.of_nat t).
      { apply Qlt_shift_div_l; [exact Hp|].
        assert (0 < x) by (destruct (Qlt_le_dec 0 x) as [H|H]; [exact H|];
                            exfalso; apply Hnz; lra).
        lra. }
      lra.
Qed.

Lemma npv_from_opp (r : Q) (F : list Q) (t : nat) :
  Npf.npv_from r t (map Qopp F) == - Npf.npv_from r t F.
Proof.
  revert t. induction F as [|x F IH]; intro t; simpl.
  - reflexivity.
  - rewrite IH. unfold Qdiv. ring.
Qed.

Lemma npv_from_neg (r : Q) (F : list Q) (t : nat) :
  0 < 1 + r -> Forall (fun x => x <= 0) F -> Exists (fun x => ~ x == 0) F ->
  Npf.npv_from r t F < 0.
Proof.
  intros Hr HF HE.
  assert (H : 0 < Npf.npv_from r t (map Qopp F)).
  { apply npv_from_pos; [exact Hr | |].
    - rewrite Forall_map. eapply Forall_impl; [|exact HF].
      intros x Hx. simpl in Hx. lra.
    - rewrite Exists_map. eapply Exists_impl; [|exact HE].
      intros x Hx Hz. apply Hx. lra. }
  rewrite npv_from_opp in H. lra.
Qed.

Lemma nonneg_or_negative_entry (F : list Q) :
  Forall (fun x => 0 <= x) F \/ exists i, (i < length F)%nat /\ flow F i < 0.
Proof.
  induction F as [|x F [IH | (i & Hi & Hneg)]].
  - left. constructor.
  - destruct (Qlt_le_dec x 0) as [Hx | Hx].
    + right. exists 0%nat. simpl. split; [lia | exact Hx].
    + left. now constructor.
  - right. exists (S i). simpl. split; [lia | exact Hneg].
Qed.

Lemma nonpos_or_positive_entry (F : list Q) :
  Forall (fun x => x <= 0) F \/ exists i, (i < length F)%nat /\ 0 < flow F i.
Proof.
  induction F as [|x F [IH | (i & Hi & Hpos)]].
  - left. constructor.
  - destruct (Qlt_le_dec 0 x) as [Hx | Hx].
    + right. exists 0%nat. simpl. split; [lia | exact Hx].
    + left. now constructor.
  - right. exists (S i). simpl. split; [lia | exact Hpos].
Qed.

Lemma no_sign_change_one_sided (F : list Q) :
  ~ sign_change F ->
  Forall (fun x => 0 <= x) F \/ Forall (fun x => x <= 0) F.
Proof.
  intro H.
  destruct (nonneg_or_negative_entry F) as [Hall | (i & Hi & Hneg)];
    [now left|].
  destruct (nonpos_or_positive_entry F) as [Hall | (j & Hj & Hpos)];
    [now right|].
  exfalso. apply H.
  destruct (Nat.lt_trichotomy i j) as [Hij | [Hij | Hij]].
  - exists i, j. split; [lia|]. left. now split.
  - subst j. lra.
  - exists j, i. split; [lia|]. right. now split.
Qed.

(** A sound solver returns no rate on a vector that has no sign change and
    is not all zero; the function then yields [nan]. *)
Lemma irr_nan_without_sign_change
    (npf_irr : list Q -> irr_outcome) (df : DataFrame) (C0 wacc : Q) :
  irr_sound npf_irr ->
  ~ sign_change (full_vector df C0) ->
  Exists (fun x => ~ x == 0) (full_vector df C0) ->
  irr_value (calculate_project_metrics npf_irr df C0 wacc) = NaN.
Proof.
  intros Hsound Hno Hnz. rewrite irr_value_eq.
  destruct (npf_irr (full_vector df C0)) as [[r|]|] eqn:E; try reflexivity.
  exfalso. destruct (Hsound _ _ E) as [Hr Hroot]. unfold Npf.npv in Hroot.
  destruct (no_sign_change_one_sided _ Hno) as [Hall | Hall].
  - assert (H := npv_from_pos r _ 0 Hr Hall Hnz). lra.
  - assert (H := npv_from_neg r _ 0 Hr Hall Hnz). lra.
Qed.

Lemma irr_two_flows_sound : irr_sound irr_two_flows.
Proof.
  intros F r H.
  destruct F as [|a [|b [|c F]]]; try discriminate H.
  unfold irr_two_flows in H.
  destruct ((Qltb a 0 && Qltb 0 b) || (Qltb 0 a && Qltb b 0)) eqn:E;
    [|discriminate H].
  injection H as <-.
  assert (Hab : (a < 0 /\ 0 < b) \/ (0 < a /\ b < 0)).
  { apply orb_true_iff in E. destruct E as [E | E];
      apply andb_true_iff in E; destruct E as [E1 E2];
      apply Qltb_lt in E1; apply Qltb_lt in E2; [left | right]; now split. }
  assert (Ha : ~ a == 0) by (destruct Hab as [[? ?] | [? ?]]; lra).
  assert (Hb : ~ b == 0) by (destruct Hab as [[? ?] | [? ?]]; lra).
  assert (Hbase : 1 + (- b / a - 1) == - b / a) by (field; exact Ha).
  assert (Hpos : 0 < - b / a).
  { destruct Hab as [[H1 H2] | [H1 H2]].
    - assert (Hq : - b / a == b / - a) by (field; lra).
      rewrite Hq. apply Qlt_shift_div_l; lra.
    - apply Qlt_shift_div_l; lra. }
  split.
  - rewrite Hbase. exact Hpos.
  - unfold Npf.npv. simpl. rewrite Hbase.
    field. repeat split; assumption.
Qed.

(** ** The event log *)

Lemma result_bind {A B : Type} (c : St A) (k : A -> St B) :
  result (bind c k) = result (k (result c)).
Proof.
  unfold result, bind. destruct c as [a l1]. simpl.
  now destruct (k a).
Qed.

Lemma events_bind {A B : Type} (c : St A) (k : A -> St B) :
  events (bind c k) = events c ++ events (k (result c)).
Proof.
  unfold events, result, bind. destruct c as [a l1]. simpl.
  now destruct (k a).
Qed.

(** ** The cash-flow table *)

Lemma years_column (n i : nat) :
  (i < n)%nat -> nth_error (map Z.of_nat (seq 1 n)) i = Some (Z.of_nat (S i)).
Proof.
  intro Hi. rewrite nth_error_map, nth_error_seq.
  destruct (Nat.ltb_spec i n); [reflexivity | lia].
Qed.

Lemma arange_years (N : Z) :
  (0 <= N)%Z -> Np.arange 1 (Z.to_nat (N + 1)) = seq 1 (Z.to_nat N).
Proof.
  intro H. unfold Np.arange. f_equal. lia.
Qed.

Lemma tax_is_max (EBT rate : Q) :
  (if Qltb 0 EBT then EBT * rate else 0) == Qmax EBT 0 * rate.
Proof.
  destruct (Qltb 0 EBT) eqn:E.
  - apply Qltb_lt in E. rewrite Q.max_l by lra. reflexivity.
  - apply Qltb_ge in E. rewrite Q.max_r by lra. ring.
Qed.

Lemma cashflow_data_len (I : Q) (N : Z) (R C rate : Q) :
  (0 <= N)%Z -> df_len (cashflow_data I N R C rate) = Z.to_nat N.
Proof.
  intro H. unfold df_len, cashflow_data. simpl col_Nam.
  rewrite arange_years by exact H. now rewrite length_map, length_seq.
Qed.

Lemma cashflow_data_iloc (I : Q) (N : Z) (R C rate : Q) (i : nat) :
  (0 <= N)%Z -> (i < Z.to_nat N)%nat ->
  let d := I / inject_Z N in
  let b := R - C - d in
  let t := if Qltb 0 b then b * rate else 0 in
  iloc (cashflow_data I N R C rate) i =
  Some (mkRow (Z.of_nat (S i)) R C d b t (b - t) (b - t + d)).
Proof.
  intros HN Hi d b t. unfold iloc, cashflow_data. simpl.
  rewrite arange_years by exact HN.
  rewrite years_column by exact Hi.
  rewrite !nth_error_repeat by exact Hi. reflexivity.
Qed.

Lemma cashflow_data_iloc_none (I : Q) (N : Z) (R C rate : Q) (i : nat) :
  (0 <= N)%Z -> (Z.to_nat N <= i)%nat ->
  iloc (cashflow_data I N R C rate) i = None.
Proof.
  intros HN Hi. unfold iloc, cashflow_data. simpl.
  rewrite arange_years by exact HN.
  assert (E : nth_error (map Z.of_nat (seq 1 (Z.to_nat N))) i = None).
  { apply nth_error_None. now rewrite length_map, length_seq. }
  now rewrite E.
Qed.

(** ** The main flow *)

Lemma metrics_data_irr_not_nan (m : metrics) :
  np_isnan (md_IRR (metrics_data m)) = false.
Proof.
  unfold metrics_data. simpl. now destruct (irr_value m).
Qed.

Section Flow.

Variable npf_irr : list Q -> irr_outcome.
Variables (v : locals) (R C : Q).

Let guard := ((0 <? project_life v)%Z && Qle_bool 0 (initial_investment v))%bool.
Let df := cashflow_data (initial_investment v) (project_life v) R C (tax_rate v).
Let m := calculate_project_metrics npf_irr df (initial_investment v) (wacc v).

Lemma appraise_guard_false :
  guard = false ->
  appraise npf_irr v R C = (mkRun v None None None, [StWarning MsgLifeAndInvestment]).
Proof.
  intro H. unfold appraise. fold guard. rewrite H. reflexivity.
Qed.

Lemma appraise_wacc_rejected :
  guard = true -> Qltb 0 (wacc v) = false ->
  appraise npf_irr v R C = (mkRun v (Some df) None None, [StWarning MsgWacc]).
Proof.
  intros H Hw. unfold appraise. fold guard. rewrite H, Hw. reflexivity.
Qed.

Lemma appraise_metrics :
  guard = true -> Qltb 0 (wacc v) = true ->
  appraise npf_irr v R C =
  (mkRun v (Some df) (Some m) (Some (metrics_data m)), []).
Proof.
  intros H Hw. unfold appraise. fold guard. rewrite H, Hw.
  fold df. fold m. cbv beta iota zeta.
  unfold bind, ret. cbn [run_metrics_data].
  rewrite metrics_data_irr_not_nan. reflexivity.
Qed.

Lemma appraise_cases :
  appraise npf_irr v R C = (mkRun v None None None, [StWarning MsgLifeAndInvestment]) \/
  appraise npf_irr v R C = (mkRun v (Some df) None None, [StWarning MsgWacc]) \/
  appraise npf_irr v R C = (mkRun v (Some df) (Some m) (Some (metrics_data m)), []).
Proof.
  destruct guard eqn:G.
  - destruct (Qltb 0 (wacc v)) eqn:W.
    + right. right. now apply appraise_metrics.
    + right. left. now apply appraise_wacc_rejected.
  - left. now apply appraise_guard_false.
Qed.

Lemma appraise_locals : run_locals (result (appraise npf_irr v R C)) = v.
Proof.
  destruct appraise_cases as [E | [E | E]]; now rewrite E.
Qed.

End Flow.

(** The warning of line 378 is never shown: [metrics_data['IRR']] is never
    [nan]. *)
Lemma irr_warning_never_shown
    (npf_irr : list Q -> irr_outcome) (v : locals) (R C : Q) :
  ~ In (StWarning MsgIrr) (events (appraise npf_irr v R C)).
Proof.
  destruct (appraise_cases npf_irr v R C) as [E | [E | E]]; rewrite E; simpl;
    intuition discriminate.
Qed.

Lemma main_completed
    (npf_irr : list Q -> irr_outcome) (data : extracted) (r : run) :
  result (main npf_irr data) = Completed r ->
  exists R C,
    annual_revenue (result (read_parameters data)) = Some R /\
    annual_cost (result (read_parameters data)) = Some C /\
    r = result (appraise npf_irr (result (read_parameters data)) R C) /\
    events (main npf_irr data) =
      events (read_parameters data) ++
      events (appraise npf_irr (result (read_parameters data)) R C).
Proof.
  unfold main. rewrite result_bind, events_bind.
  destruct (annual_revenue (result (read_parameters data))) as [R|];
    [|discriminate].
  destruct (annual_cost (result (read_parameters data))) as [C|];
    [|discriminate].
  rewrite result_bind, events_bind. simpl.
  intro H. injection H as <-. exists R, C. rewrite app_nil_r. auto.
Qed.

Lemma appraise_df
    (npf_irr : list Q -> irr_outcome) (v : locals) (R C : Q) :
  (0 < project_life v)%Z -> 0 <= initial_investment v ->
  run_df (result (appraise npf_irr v R C)) =
  Some (cashflow_data (initial_investment v) (project_life v) R C (tax_rate v)).
Proof.
  intros HN HI.
  assert (G : ((0 <? project_life v)%Z && Qle_bool 0 (initial_investment v))%bool = true).
  { apply andb_true_iff. split; [now apply Z.ltb_lt | now apply Qle_bool_iff]. }
  destruct (Qltb 0 (wacc v)) eqn:W.
  - now rewrite appraise_metrics.
  - now rewrite appraise_wacc_rejected.
Qed.

Lemma main_runs
    (npf_irr : list Q -> irr_outcome) (data : extracted) (R C : Q) :
  annual_revenue (result (read_parameters data)) = Some R ->
  annual_cost (result (read_parameters data)) = Some C ->
  result (main npf_irr data) =
    Completed (result (appraise npf_irr (result (read_parameters data)) R C)) /\
  events (main npf_irr data) =
    events (read_parameters data) ++
    events (appraise npf_irr (result (read_parameters data)) R C).
Proof.
  intros HR HC. unfold main. rewrite result_bind, events_bind, HR, HC.
  rewrite result_bind, events_bind. simpl. now rewrite app_nil_r.
Qed.

Section Reading.

Variable data : extracted.
Variables (ii ar ac : Q) (n : Z).
Hypothesis Hii : to_float (get (VonDauTu data) 0) = Some ii.
Hypothesis Hn : to_int (get (DongDoiDuAn data) 0) = Some n.
Hypothesis Har : to_float (get (DoanhThuHangNam data) 0) = Some ar.
Hypothesis Hac : to_float (get (ChiPhiHoatDongHangNam data) 0) = Some ac.

Lemma read_parameters_ok (w t : Q) :
  to_float (get (WACC data) 0.13) = Some w ->
  to_float (get (ThueSuat data) 0.20) = Some t ->
  read_parameters data =
  (mkLocals ii (if (n <=? 0)%Z then 1%Z else n) (Some ar) (Some ac)
            (percent_to_fraction w) (percent_to_fraction t),
   if (n <=? 0)%Z then [StError MsgProjectLife] else []).
Proof.
  intros Hw Ht. unfold read_parameters. rewrite Hii, Hn, Har, Hac, Hw, Ht.
  now destruct (n <=? 0)%Z.
Qed.

Lemma read_parameters_rate_failed :
  to_float (get (WACC data) 0.13) = None \/
  to_float (get (ThueSuat data) 0.20) = None ->
  read_parameters data =
  (mkLocals 0 1 (Some ar) (Some ac) 0.13 0.2, [StError MsgConversion]).
Proof.
  intro H. unfold read_parameters. rewrite Hii, Hn, Har, Hac.
  destruct (to_float (get (WACC data) 0.13)) as [w|]; [|reflexivity].
  destruct H as [H | H]; [discriminate H|]. now rewrite H.
Qed.

End Reading.

(** ** Claims on the parameters, the table and the flow *)

(** C2.  With a project life [N >= 1] and an initial investment [>= 0] the
    flow builds a table of [N] rows; row [i] carries year [i], the annual
    revenue and cost, depreciation [initialInvestment / N],
    [ebt = revenue - cost - depreciation], [tax = max(ebt, 0) * taxRate],
    [eat = ebt - tax] and [netCashFlow = eat + depreciation]; any two rows
    agree on every field but the year. *)
Theorem schedule_rows
    (npf_irr : list Q -> irr_outcome) (v : locals) (R C : Q) :
  (1 <= project_life v)%Z -> 0 <= initial_investment v ->
  exists df,
    run_df (result (appraise npf_irr v R C)) = Some df /\
    df_len df = Z.to_nat (project_life v) /\
    (forall i, (Z.to_nat (project_life v) <= i)%nat -> iloc df i = None) /\
    (forall i, (i < Z.to_nat (project_life v))%nat ->
       exists row, iloc df i = Some row /\
         year row = Z.of_nat (S i) /\
         row_invariant (initial_investment v) (project_life v) R C (tax_rate v) row) /\
    (forall i j a b, iloc df i = Some a -> iloc df j = Some b -> same_but_year a b).
Proof.
  intros HN HI.
  exists (cashflow_data (initial_investment v) (project_life v) R C (tax_rate v)).
  assert (H0 : (0 <= project_life v)%Z) by lia.
  split; [apply appraise_df; [lia | exact HI]|].
  split; [now apply cashflow_data_len|].
  split; [intros i Hi; now apply cashflow_data_iloc_none|].
  split.
  - intros i Hi. eexists. split; [now apply cashflow_data_iloc|].
    split; [reflexivity|]. unfold row_invariant. simpl.
    repeat split; try reflexivity. apply tax_is_max.
  - intros i j a b Ha Hb.
    destruct (Nat.lt_ge_cases i (Z.to_nat (project_life v))) as [Hi | Hi];
      [|rewrite cashflow_data_iloc_none in Ha by assumption; discriminate Ha].
    destruct (Nat.lt_ge_cases j (Z.to_nat (project_life v))) as [Hj | Hj];
      [|rewrite cashflow_data_iloc_none in Hb by assumption; discriminate Hb].
    rewrite cashflow_data_iloc in Ha by assumption.
    rewrite cashflow_data_iloc in Hb by assumption.
    injection Ha as <-. injection Hb as <-.
    unfold same_but_year. simpl. repeat split.
Qed.

Lemma percent_to_fraction_cases (v : Q) :
  normalised_as v (percent_to_fraction v).
Proof.
  unfold normalised_as, percent_to_fraction.
  destruct (Qltb 1 v) eqn:E1; destruct (Qle_bool v 100) eqn:E2; simpl;
    try apply Qltb_lt in E1; try apply Qltb_ge in E1;
    try apply Qle_bool_iff in E2;
    repeat split; intros; try reflexivity; try lra.
  all: exfalso; destruct H as [_ H]; apply Qle_bool_iff in H; congruence.
Qed.

(** C7.  When the six entries are numeric, the [wacc] and the [tax_rate]
    the flow goes on with are the raw values [w] and [t] normalised: a value
    above 1 and at most 100 is divided by 100, a value at most 1 is kept, and
    a value above 100 is kept as it is. *)
Theorem rates_normalised
    (data : extracted) (ii ar ac w t : Q) (n : Z) :
  to_float (get (VonDauTu data) 0) = Some ii ->
  to_int (get (DongDoiDuAn data) 0) = Some n ->
  to_float (get (DoanhThuHangNam data) 0) = Some ar ->
  to_float (get (ChiPhiHoatDongHangNam data) 0) = Some ac ->
  to_float (get (WACC data) 0.13) = Some w ->
  to_float (get (ThueSuat data) 0.20) = Some t ->
  normalised_as w (wacc (result (read_parameters data))) /\
  normalised_as t (tax_rate (result (read_parameters data))).
Proof.
  intros Hii Hn Har Hac Hw Ht.
  rewrite (read_parameters_ok data ii ar ac n Hii Hn Har Hac w t Hw Ht).
  simpl. split; apply percent_to_fraction_cases.
Qed.

(** C9.  For a normalised [wacc <= 0] the flow does not call
    [calculate_project_metrics]: no metrics and no [metrics_data] exist
    after the run, and the log holds exactly one warning, the one on WACC
    when the table was built, the one on life and investment otherwise. *)
Theorem nonpositive_wacc_rejected
    (npf_irr : list Q -> irr_outcome) (v : locals) (R C : Q) :
  wacc v <= 0 ->
  run_metrics (result (appraise npf_irr v R C)) = None /\
  run_metrics_data (result (appraise npf_irr v R C)) = None /\
  (events (appraise npf_irr v R C) = [StWarning MsgWacc] \/
   events (appraise npf_irr v R C) = [StWarning MsgLifeAndInvestment]) /\
  (run_df (result (appraise npf_irr v R C)) <> None ->
   events (appraise npf_irr v R C) = [StWarning MsgWacc]).
Proof.
  intro Hw. apply Qltb_ge in Hw.
  destruct ((0 <? project_life v)%Z && Qle_bool 0 (initial_investment v))%bool eqn:G.
  - rewrite appraise_wacc_rejected by assumption. simpl. auto.
  - rewrite appraise_guard_false by assumption. simpl.
    repeat split; auto. intro H. now contradiction H.
Qed.

(** ** Claims on the rate of return *)

Lemma nonpos_vector_no_sign_change (F : list Q) :
  forallb (fun x => Qle_bool x 0) F = true -> ~ sign_change F.
Proof.
  intros H (i & j & Hij & [[_ Hpos] | [Hpos _]]);
    rewrite forallb_forall in H.
  - assert (Hin : In (flow F j) F) by (apply nth_In; lia).
    apply H, Qle_bool_iff in Hin. lra.
  - assert (Hin : In (flow F i) F) by (apply nth_In; lia).
    apply H, Qle_bool_iff in Hin. lra.
Qed.

Lemma nonzero_entry (F : list Q) :
  existsb (fun x => negb (Qeq_bool x 0)) F = true ->
  Exists (fun x => ~ x == 0) F.
Proof.
  intro H. apply existsb_exists in H. destruct H as (x & Hin & Hx).
  apply Exists_exists. exists x. split; [exact Hin|].
  intro Hz. apply Qeq_bool_iff in Hz. rewrite Hz in Hx. discriminate Hx.
Qed.

(** C5, on the code.  On a vector with no sign change (and not all zero) a
    sound solver gives no rate: [calculate_project_metrics] returns [nan]
    for the IRR next to the NPV, PP and DPP, and the metric on screen reads
    'Không tính được'.  But line 338 stores 0.0 in [metrics_data['IRR']], so
    what is handed on as the IRR is the number zero and displays as 0%. *)
Theorem irr_nan_stored_as_zero
    (npf_irr : list Q -> irr_outcome) (df : DataFrame) (C0 wacc : Q) :
  irr_sound npf_irr ->
  ~ sign_change (full_vector df C0) ->
  Exists (fun x => ~ x == 0) (full_vector df C0) ->
  let m := calculate_project_metrics npf_irr df C0 wacc in
  irr_value m = NaN /\
  irr_display (irr_value m) = KhongTinhDuoc /\
  md_IRR (metrics_data m) = Num 0 /\
  irr_display (md_IRR (metrics_data m)) = Percent 0 /\
  md_NPV (metrics_data m) = npv_value m /\
  md_PP (metrics_data m) = pp m /\
  md_DPP (metrics_data m) = dpp m.
Proof.
  intros Hs Hno Hnz m.
  assert (E : irr_value m = NaN) by now apply irr_nan_without_sign_change.
  unfold metrics_data. cbn [md_IRR md_NPV md_PP md_DPP].
  rewrite E. repeat split.
Qed.

(** ** The spec's test points and instances of the claims *)

Example payback_boundary :
  payback_eq (pp (calculate_project_metrics irr_two_flows boundary_df 1000 0.13))
             (Years 2).
Proof. vm_compute. reflexivity. Qed.

Example never_recovers :
  pp (calculate_project_metrics irr_two_flows
        (cashflow_data 1000 2 100 0 0) 1000 0.13) = KhongHoanVon.
Proof. vm_compute. reflexivity. Qed.

Example scenario_first_row :
  exists row,
    iloc (cashflow_data 30000000000 5 15000000000 6000000000 0.20) 0 = Some row /\
    depreciation row == 6000000000 /\ ebt row == 3000000000 /\
    tax row == 600000000 /\ eat row == 2400000000 /\
    netCashFlow row == 8400000000.
Proof. eexists. split; [reflexivity|]. vm_compute. repeat split. Qed.

Example scenario_wacc_13_percent :
  wacc (result (read_parameters scenario)) == 0.13 /\
  tax_rate (result (read_parameters scenario)) == 0.20.
Proof. vm_compute. split; reflexivity. Qed.

Example one_year_rate :
  match irr_value (calculate_project_metrics irr_two_flows
                     (cashflow_data 1 1 2 0 0) 1 0.13) with
  | Num r => r == 1
  | NaN => False
  end.
Proof. vm_compute. reflexivity. Qed.

(** The NPV formula at the payback-boundary project, rate 13%. *)
Lemma npv_is_discounted_sum_at_boundary :
  npv_value (calculate_project_metrics irr_two_flows boundary_df 1000 0.13) ==
  - 1000 + Sigma 1 3 (fun i => flow (col_CF boundary_df) (i - 1)
                                / (1 + 0.13) ^ Z.of_nat i).
Proof.
  exact (proj2 (proj2
    (npv_is_discounted_sum irr_two_flows boundary_df 1000 0.13 eq_refl))).
Defined.

(** The table of the end-to-end scenario has five rows. *)
Lemma schedule_rows_at_scenario :
  exists df,
    run_df (result (appraise irr_two_flows scenario_locals
                      15000000000 6000000000)) = Some df /\
    df_len df = 5%nat.
Proof.
  assert (HN : (1 <= project_life scenario_locals)%Z) by (simpl; lia).
  assert (HI : 0 <= initial_investment scenario_locals) by (simpl; lra).
  destruct (schedule_rows irr_two_flows scenario_locals
              15000000000 6000000000 HN HI) as (df & Hdf & Hlen & _).
  exists df. split; [exact Hdf | exact Hlen].
Defined.

(** The loss-making project: [nan] from the function, zero in the dict. *)
Lemma irr_nan_stored_as_zero_at_loss :
  irr_value (calculate_project_metrics irr_two_flows loss_df 1000 0.13) = NaN /\
  md_IRR (metrics_data
            (calculate_project_metrics irr_two_flows loss_df 1000 0.13)) = Num 0.
Proof.
  assert (Hno : ~ sign_change (full_vector loss_df 1000))
    by (apply nonpos_vector_no_sign_change; vm_compute; reflexivity).
  assert (Hnz : Exists (fun x => ~ x == 0) (full_vector loss_df 1000))
    by (apply nonzero_entry; vm_compute; reflexivity).
  destruct (irr_nan_stored_as_zero irr_two_flows loss_df 1000 0.13
              irr_two_flows_sound Hno Hnz) as (H1 & _ & H3 & _).
  split; [exact H1 | exact H3].
Defined.

(** A WACC given as 13 becomes 13/100. *)
Lemma rates_normalised_at_percent :
  wacc (result (read_parameters percent_data)) = 13 / 100.
Proof.
  apply (rates_normalised percent_data 30000000000 15000000000 6000000000
           13 0.20 5 eq_refl eq_refl eq_refl eq_refl eq_refl eq_refl).
  split; [reflexivity | discriminate].
Defined.

(** A WACC of 0: no metrics, one warning. *)
Lemma nonpositive_wacc_rejected_at_zero :
  run_metrics (result (appraise irr_two_flows zero_wacc_locals 500 0)) = None /\
  events (appraise irr_two_flows zero_wacc_locals 500 0) = [StWarning MsgWacc].
Proof.
  assert (Hw : wacc zero_wacc_locals <= 0) by (simpl; lra).
  destruct (nonpositive_wacc_rejected irr_two_flows zero_wacc_locals 500 0 Hw)
    as (H1 & _ & _ & H4).
  split; [exact H1|]. apply H4. vm_compute. discriminate.
Defined.

(** * Further properties of the code *)

(** ** Payback and net present value *)














(** ** The net cash flow of a row *)

Lemma cashflow_data_iloc_some (I : Q) (N : Z) (R C rate : Q) (i : nat)
    (row : CashFlowRow) :
  iloc (cashflow_data I N R C rate) i = Some row ->
  (1 <= N)%Z /\ (i < Z.to_nat N)%nat.
Proof.
  intro H.
  destruct (Z.le_gt_cases 0 N) as [HN | HN].
  - destruct (Nat.lt_ge_cases i (Z.to_nat N)) as [Hi | Hi].
    + split; [lia | exact Hi].
    + rewrite cashflow_data_iloc_none in H by assumption. discriminate H.
  - exfalso. unfold iloc, cashflow_data in H. cbn [col_Nam] in H.
    replace (Z.to_nat (N + 1)) with 0%nat in H by lia.
    simpl in H. destruct i; discriminate H.
Qed.

(** X5.  In every row of the table the net cash flow is the operating
    margin [R - C] less the tax.  A year whose margin does not exceed the
    depreciation pays no tax and its net cash flow is the margin; a year
    with a larger margin keeps [rate] of the depreciation as a tax shield,
    and for a rate between 0 and 1 its net cash flow lies between the
    depreciation and the margin. *)
Theorem net_cash_flow_closed_form
    (I : Q) (N : Z) (R C rate : Q) (i : nat) (row : CashFlowRow) :
  iloc (cashflow_data I N R C rate) i = Some row ->
  let d := I / inject_Z N in
  netCashFlow row == R - C - tax row /\
  (R - C <= d -> tax row == 0 /\ netCashFlow row == R - C) /\
  (d < R - C ->
     netCashFlow row == (R - C) * (1 - rate) + rate * d /\
     (0 <= rate <= 1 -> d <= netCashFlow row <= R - C)).
Proof.
  intros H d.
  destruct (cashflow_data_iloc_some _ _ _ _ _ _ _ H) as [HN Hi].
  rewrite cashflow_data_iloc in H by (try lia; exact Hi).
  injection H as <-. cbn [netCashFlow tax]. fold d.
  destruct (Qltb 0 (R - C - d)) eqn:E.
  - apply Qltb_lt in E. split; [ring|]. split; [intro; lra|].
    intros _. split; [ring|]. intros [H0 H1]. split; nra.
  - apply Qltb_ge in E. split; [ring|]. split.
    + intros _. split; [reflexivity | ring].
    + intro Hlt. lra.
Qed.

(** ** Reading the parameters: failures, defaults and coercion *)

(** X6.  When the investment, the project life, the revenue or the cost
    entry cannot be converted, the handler of lines 265-267 reports the
    conversion error but leaves [annual_revenue] or [annual_cost] unbound,
    and the script stops at lines 285-286 with a [NameError]: no table and no
    metrics are produced. *)
Theorem unconvertible_entry_stops_script
    (npf_irr : list Q -> irr_outcome) (data : extracted) :
  to_float (get (VonDauTu data) 0) = None \/
  to_int (get (DongDoiDuAn data) 0) = None \/
  to_float (get (DoanhThuHangNam data) 0) = None \/
  to_float (get (ChiPhiHoatDongHangNam data) 0) = None ->
  main npf_irr data = (NameError, [StError MsgConversion]).
Proof.
  intro H. unfold main, read_parameters.
  destruct (to_float (get (VonDauTu data) 0)) as [ii|]; [|reflexivity].
  destruct (to_int (get (DongDoiDuAn data) 0)) as [n|]; [|reflexivity].
  destruct (to_float (get (DoanhThuHangNam data) 0)) as [ar|]; [|reflexivity].
  destruct (to_float (get (ChiPhiHoatDongHangNam data) 0)) as [ac|];
    [|reflexivity].
  destruct H as [H | [H | [H | H]]]; discriminate H.
Qed.

Lemma to_int_small (x : Q) :
  x < 1 -> (Z.quot (Qnum x) (Z.pos (Qden x)) <= 0)%Z.
Proof.
  destruct x as [a d]. unfold Qlt. simpl. intro H.
  destruct (Z.le_gt_cases 0 a) as [Ha | Ha].
  - rewrite Z.quot_div_nonneg by lia. rewrite Z.div_small by lia. lia.
  - replace a with (- (- a))%Z by lia. rewrite Z.quot_opp_l by lia.
    assert (0 <= Z.quot (- a) (Z.pos d))%Z by (apply Z.quot_pos; lia). lia.
Qed.

Lemma to_int_floor (x : Q) :
  1 <= x ->
  Z.quot (Qnum x) (Z.pos (Qden x)) = Qfloor x /\ (1 <= Qfloor x)%Z.
Proof.
  destruct x as [a d]. unfold Qle. simpl. intro H.
  rewrite Z.quot_div_nonneg by lia. split; [reflexivity|].
  apply Z.div_le_lower_bound; lia.
Qed.

Lemma Qfloor_small (x : Q) : x < 1 -> (Qfloor x <= 0)%Z.
Proof.
  intro H. assert (H1 := Qfloor_le x).
  assert (H2 : inject_Z (Qfloor x) < inject_Z 1)
    by (change (inject_Z 1) with 1; lra).
  rewrite <- Zlt_Qlt in H2. lia.
Qed.

(** X8.  With six numeric entries, the project life the run goes on with
    is the larger of 1 and the integer part of the supplied value [x]; the
    message of line 262 is shown exactly when [x < 1], which includes the
    fractions between 0 and 1 that [int()] truncates to 0. *)
Theorem project_life_is_floor_or_one
    (data : extracted) (ii x ar ac w t : Q) :
  to_float (get (VonDauTu data) 0) = Some ii ->
  get (DongDoiDuAn data) 0 = Numeric x ->
  to_float (get (DoanhThuHangNam data) 0) = Some ar ->
  to_float (get (ChiPhiHoatDongHangNam data) 0) = Some ac ->
  to_float (get (WACC data) 0.13) = Some w ->
  to_float (get (ThueSuat data) 0.20) = Some t ->
  project_life (result (read_parameters data)) = Z.max 1 (Qfloor x) /\
  (x < 1 -> events (read_parameters data) = [StError MsgProjectLife]) /\
  (1 <= x -> events (read_parameters data) = []).
Proof.
  intros Hii Hx Har Hac Hw Ht.
  assert (Hn : to_int (get (DongDoiDuAn data) 0)
               = Some (Z.quot (Qnum x) (Z.pos (Qden x))))
    by now rewrite Hx.
  rewrite (read_parameters_ok data ii ar ac _ Hii Hn Har Hac w t Hw Ht).
  unfold result, events. cbn [fst snd project_life].
  destruct (Qlt_le_dec x 1) as [Hlt | Hge].
  - assert (H := to_int_small x Hlt). assert (Hf := Qfloor_small x Hlt).
    apply Z.leb_le in H. rewrite H.
    split; [lia|]. split; [reflexivity | intro; lra].
  - destruct (to_int_floor x Hge) as [E H1]. rewrite E.
    assert (Hb : (Qfloor x <=? 0)%Z = false) by (apply Z.leb_gt; lia).
    rewrite Hb. split; [lia|]. split; [intro; lra | reflexivity].
Qed.

Lemma percent_to_fraction_either (v : Q) :
  (1 < v /\ v <= 100 /\ percent_to_fraction v = v / 100) \/
  ((v <= 1 \/ 100 < v) /\ percent_to_fraction v = v).
Proof.
  unfold percent_to_fraction.
  destruct (Qltb 1 v) eqn:E1; destruct (Qle_bool v 100) eqn:E2; simpl;
    try apply Qltb_lt in E1; try apply Qltb_ge in E1;
    try apply Qle_bool_iff in E2; auto.
  right. split; [right | reflexivity].
  apply Qnot_le_lt. intro H. apply Qle_bool_iff in H. congruence.
Qed.

(** X9.  The normalisation of lines 257-258 maps every raw rate in
    (0, 100] into (0, 1]; its result exceeds 1 exactly when the raw value
    exceeded 100; and applying it twice changes nothing more. *)
Theorem percent_to_fraction_range (v : Q) :
  (0 < v <= 100 -> 0 < percent_to_fraction v <= 1) /\
  (1 < percent_to_fraction v <-> 100 < v) /\
  percent_to_fraction (percent_to_fraction v) = percent_to_fraction v.
Proof.
  destruct (percent_to_fraction_either v) as [(H1 & H2 & E) | (H & E)];
    rewrite E.
  - assert (Hd : v / 100 <= 1) by (apply Qle_shift_div_r; lra).
    assert (Hp : 0 < v / 100) by (apply Qlt_shift_div_l; lra).
    repeat split; try lra.
    destruct (percent_to_fraction_either (v / 100)) as [(H3 & _) | (_ & E')];
      [lra | exact E'].
  - split; [|split].
    + intros [H0 H1]. destruct H; lra.
    + split; intro H0; destruct H; lra.
    + exact E.
Qed.

(** X10.  An absent key takes the default of its [data.get]: investment,
    revenue and cost 0, WACC 0.13, tax rate 0.20; an absent project life
    defaults to 0, so it is reported by line 262 and replaced by 1. *)
Theorem absent_keys_take_defaults
    (data : extracted) (ii ar ac w t : Q) (n : Z) :
  to_float (get (VonDauTu data) 0) = Some ii ->
  to_int (get (DongDoiDuAn data) 0) = Some n ->
  to_float (get (DoanhThuHangNam data) 0) = Some ar ->
  to_float (get (ChiPhiHoatDongHangNam data) 0) = Some ac ->
  to_float (get (WACC data) 0.13) = Some w ->
  to_float (get (ThueSuat data) 0.20) = Some t ->
  let v := result (read_parameters data) in
  (VonDauTu data = None -> initial_investment v = 0) /\
  (DongDoiDuAn data = None ->
     project_life v = 1%Z /\
     events (read_parameters data) = [StError MsgProjectLife]) /\
  (DoanhThuHangNam data = None -> annual_revenue v = Some 0) /\
  (ChiPhiHoatDongHangNam data = None -> annual_cost v = Some 0) /\
  (WACC data = None -> wacc v = 0.13) /\
  (ThueSuat data = None -> tax_rate v = 0.20).
Proof.
  intros Hii Hn Har Hac Hw Ht v. subst v.
  rewrite (read_parameters_ok data ii ar ac n Hii Hn Har Hac w t Hw Ht).
  unfold result, events.
  cbn [fst snd initial_investment project_life annual_revenue annual_cost
       wacc tax_rate].
  split; [|split; [|split; [|split; [|split]]]]; intro H.
  - rewrite H in Hii. injection Hii as <-. reflexivity.
  - rewrite H in Hn. injection Hn as <-. now split.
  - rewrite H in Har. injection Har as <-. reflexivity.
  - rewrite H in Hac. injection Hac as <-. reflexivity.
  - rewrite H in Hw. injection Hw as <-. reflexivity.
  - rewrite H in Ht. injection Ht as <-. reflexivity.
Qed.

(** X11.  No run shows the warning of line 378, whatever the data and
    whatever [npf.irr] returns: the test reads [metrics_data['IRR']], which
    line 338 has already made a number; for the same reason the IRR text of
    line 173 is never 'Không tính được' on a dict built by the flow. *)
Theorem irr_warning_is_dead
    (npf_irr : list Q -> irr_outcome) (data : extracted) :
  ~ In (StWarning MsgIrr) (events (main npf_irr data)) /\
  forall r d,
    result (main npf_irr data) = Completed r ->
    run_metrics_data r = Some d ->
    exists x, irr_display (md_IRR d) = Percent x.
Proof.
  split.
  - unfold main. rewrite events_bind. intro H. apply in_app_or in H.
    destruct H as [H | H].
    + unfold read_parameters, conversion_failed in H.
      destruct (to_float (get (VonDauTu data) 0));
      destruct (to_int (get (DongDoiDuAn data) 0)) as [n|];
      destruct (to_float (get (DoanhThuHangNam data) 0));
      destruct (to_float (get (ChiPhiHoatDongHangNam data) 0));
      destruct (to_float (get (WACC data) 0.13));
      destruct (to_float (get (ThueSuat data) 0.20));
      try destruct (n <=? 0)%Z;
      simpl in H; intuition discriminate.
    + destruct (annual_revenue (result (read_parameters data))) as [R|];
        [|simpl in H; contradiction].
      destruct (annual_cost (result (read_parameters data))) as [C|];
        [|simpl in H; contradiction].
      rewrite events_bind in H. simpl in H. rewrite app_nil_r in H.
      now apply irr_warning_never_shown in H.
  - intros r d Hr Hd.
    destruct (main_completed npf_irr data r Hr) as (R & C & _ & _ & -> & _).
    destruct (appraise_cases npf_irr (result (read_parameters data)) R C)
      as [E | [E | E]]; rewrite E in Hd; simpl in Hd; try discriminate Hd.
    injection Hd as <-.
    assert (H := metrics_data_irr_not_nan
                   (calculate_project_metrics npf_irr
                      (cashflow_data
                         (initial_investment (result (read_parameters data)))
                         (project_life (result (read_parameters data))) R C
                         (tax_rate (result (read_parameters data))))
                      (initial_investment (result (read_parameters data)))
                      (wacc (result (read_parameters data))))).
    destruct (md_IRR (metrics_data _)) as [x|]; [now exists x | discriminate H].
Qed.

(** ** The reply's code fences *)

Lemma startswith_app (p r : text) : startswith p (p ++ r) = true.
Proof.
  induction p as [|a p IH]; simpl; [reflexivity|].
  now rewrite Ascii.eqb_refl, IH.
Qed.

Lemma startswith_split (p s : text) :
  startswith p s = true -> exists r, s = p ++ r.
Proof.
  revert s. induction p as [|a p IH]; intros s H.
  - now exists s.
  - destruct s as [|b s]; [discriminate H|]. simpl in H.
    apply andb_true_iff in H. destruct H as [Hab H].
    apply Ascii.eqb_eq in Hab. subst b.
    destruct (IH s H) as [r ->]. now exists r.
Qed.

Lemma endswith_app (p r : text) : endswith p (r ++ p) = true.
Proof. unfold endswith. rewrite rev_app_distr. apply startswith_app. Qed.

Lemma endswith_split (p s : text) :
  endswith p s = true -> exists r, s = r ++ p.
Proof.
  unfold endswith. intro H. apply startswith_split in H. destruct H as [r H].
  exists (rev r). apply (f_equal (@rev ascii)) in H.
  now rewrite rev_involutive, rev_app_distr, rev_involutive in H.
Qed.

Lemma firstn_drop_suffix (r p : text) :
  firstn (length (r ++ p) - length p) (r ++ p) = r.
Proof.
  rewrite length_app. replace (length r + length p - length p)%nat
    with (length r + 0)%nat by lia.
  rewrite firstn_app_2. simpl. apply app_nil_r.
Qed.

(** X12.  A reply wrapped in a ```json ... ``` block is unwrapped exactly:
    whatever stands between the opening and the closing fence is what the
    parser receives. *)
Theorem strip_fences_unwraps (body : text) :
  strip_fences (fence_json ++ body ++ fence) = body.
Proof.
  unfold strip_fences. rewrite startswith_app.
  change (skipn 7 (fence_json ++ body ++ fence)) with (body ++ fence).
  rewrite endswith_app.
  change 3%nat with (length fence). apply firstn_drop_suffix.
Qed.

(** X13.  Cleaning a reply removes nothing but the seven characters of an
    opening ```json and the three of a closing ```: the reply is the cleaned
    text between a prefix that is empty or ```json and a suffix that is empty
    or ```; a reply with neither an opening ```json nor a closing ``` is
    passed on unchanged. *)
Theorem strip_fences_shape (s : text) :
  (exists pre suf,
     s = pre ++ strip_fences s ++ suf /\
     (pre = [] \/ pre = fence_json) /\ (suf = [] \/ suf = fence)) /\
  (startswith fence_json s = false -> endswith fence s = false ->
   strip_fences s = s).
Proof.
  split.
  - unfold strip_fences.
    destruct (startswith fence_json s) eqn:E1.
    + destruct (startswith_split _ _ E1) as [r ->].
      change (skipn 7 (fence_json ++ r)) with r.
      destruct (endswith fence r) eqn:E2.
      * destruct (endswith_split _ _ E2) as [r' ->].
        change 3%nat with (length fence). rewrite firstn_drop_suffix.
        exists fence_json, fence. auto.
      * exists fence_json, []. rewrite app_nil_r. auto.
    + destruct (endswith fence s) eqn:E2.
      * destruct (endswith_split _ _ E2) as [r' ->].
        change 3%nat with (length fence). rewrite firstn_drop_suffix.
        exists [], fence. auto.
      * exists [], []. rewrite app_nil_r. auto.
  - intros E1 E2. unfold strip_fences. now rewrite E1, E2.
Qed.

(** X14.  Only an opening fence tagged json is removed: a reply of at least
    six characters that opens with ``` but not with ```json still opens with
    ``` after cleaning, so the parser is handed the fence. *)
Theorem untagged_fence_is_kept (s : text) :
  startswith fence_json s = false ->
  startswith fence s = true ->
  (6 <= length s)%nat ->
  startswith fence (strip_fences s) = true.
Proof.
  intros E1 E2 Hlen. unfold strip_fences. rewrite E1.
  destruct (endswith fence s); [|exact E2].
  destruct (startswith_split _ _ E2) as [r ->].
  rewrite firstn_app.
  rewrite firstn_all2 by (change (length fence) with 3%nat; lia).
  apply startswith_app.
Qed.

(** ** Currency display *)

(** X15.  [format_vnd] picks its unit by magnitude, for gains and losses
    alike: the number shown in billions is at least 1 in absolute value, the
    number shown in millions is at least 1 and below 1000, and a number shown
    in plain dong is below one million. *)
Theorem format_vnd_ranges (value : Q) :
  match vnd (format_vnd value) with
  | TyVND => 10 ^ 9 <= Qabs value /\ shown (format_vnd value) == value / 10 ^ 9 /\
             1 <= Qabs (shown (format_vnd value))
  | TrieuVND => 10 ^ 6 <= Qabs value < 10 ^ 9 /\
                shown (format_vnd value) == value / 10 ^ 6 /\
                1 <= Qabs (shown (format_vnd value)) < 1000
  | VND => Qabs value < 10 ^ 6 /\ shown (format_vnd value) = value
  end /\
  vnd (format_vnd (- value)) = vnd (format_vnd value) /\
  shown (format_vnd (- value)) == - shown (format_vnd value).
Proof.
  assert (Habs : forall k : Q, 0 < k -> Qabs (value / k) == Qabs value / k).
  { intros k Hk. unfold Qdiv. rewrite Qabs_Qmult.
    rewrite (Qabs_pos (/ k)); [reflexivity|].
    apply Qlt_le_weak. now apply Qinv_lt_0_compat. }
  assert (H9 : (0 : Q) < 10 ^ 9) by reflexivity.
  assert (H6 : (0 : Q) < 10 ^ 6) by reflexivity.
  split.
  - unfold format_vnd.
    destruct (Qle_bool (10 ^ 9) (Qabs value)) eqn:E9.
    + apply Qle_bool_iff in E9. cbn [vnd shown].
      split; [exact E9|]. split; [reflexivity|].
      rewrite Habs by exact H9. apply Qle_shift_div_l; [exact H9 | lra].
    + assert (L9 : Qabs value < 10 ^ 9).
      { apply Qnot_le_lt. intro H. apply Qle_bool_iff in H. congruence. }
      destruct (Qle_bool (10 ^ 6) (Qabs value)) eqn:E6.
      * apply Qle_bool_iff in E6. cbn [vnd shown].
        split; [now split|]. split; [reflexivity|].
        rewrite Habs by exact H6. split.
        -- apply Qle_shift_div_l; [exact H6 | lra].
        -- apply Qlt_shift_div_r; [exact H6|].
           assert (E : 1000 * 10 ^ 6 == 10 ^ 9) by reflexivity. lra.
      * cbn [vnd shown]. split; [|reflexivity].
        apply Qnot_le_lt. intro H. apply Qle_bool_iff in H. congruence.
  - assert (Hb : forall k, Qle_bool k (Qabs (- value)) = Qle_bool k (Qabs value))
      by (intro k; apply Qleb_comp; [reflexivity | apply Qabs_opp]).
    unfold format_vnd. rewrite !Hb.
    destruct (Qle_bool (10 ^ 9) (Qabs value));
      [|destruct (Qle_bool (10 ^ 6) (Qabs value))];
      cbn [vnd shown]; (split; [reflexivity|]); try reflexivity;
      unfold Qdiv; ring.
Qed.

(** ** Upload and extraction *)

Section ScriptFacts.

Variable docx_paragraphs : text -> text + list text.
Variable generate_content : text -> exn + text.
Variable pd_read_json : text -> text + extracted.
Variable py_strip : text -> text.
Variable npf_irr : list Q -> irr_outcome.

Let read := read_docx_file docx_paragraphs.
Let extract := extract_financial_data generate_content pd_read_json py_strip.
Let upload := upload_and_extract docx_paragraphs generate_content pd_read_json py_strip.
Let run_script := script docx_paragraphs generate_content pd_read_json py_strip npf_irr.

(** The three ways a request to the extraction service ends. *)
Lemma extract_financial_data_cases (doc : text) (k : option text) :
  truthy k = true ->
  (exists e, generate_content doc = inl e /\
     extract doc k = ([Request doc], inl (UnboundLocalError (lit "response")))) \/
  (exists reply msg, generate_content doc = inr reply /\
     pd_read_json (strip_fences (py_strip reply)) = inl msg /\
     extract doc k = ([Request doc; Notice (InvalidJson reply)], inl (ValueError msg))) \/
  (exists reply series, generate_content doc = inr reply /\
     pd_read_json (strip_fences (py_strip reply)) = inr series /\
     extract doc k = ([Request doc], inr series)).
Proof.
  intro Hk. unfold extract, extract_financial_data. rewrite Hk. simpl negb.
  cbv iota.
  destruct (generate_content doc) as [e | reply] eqn:G.
  - left. now exists e.
  - destruct (pd_read_json (strip_fences (py_strip reply))) as [msg | series] eqn:J.
    + right. left. now exists reply, msg.
    + right. right. now exists reply, series.
Qed.

(** Every run of lines 207-240, case by case. *)
Lemma upload_and_extract_cases (i : inputs) (st : option extracted) :
  let first := if negb (truthy (secret i)) then [Notice NoSecret] else [] in
  (* nothing to do *)
  ((uploaded_file i = None \/ extract_clicked i = false) /\
   upload i st = (first, st)) \/
  (exists f, uploaded_file i = Some f /\ extract_clicked i = true /\
     ((truthy (secret i) = false /\
       upload i st = ([Notice NoSecret; Notice KeyNeeded], st)) \/
      (truthy (secret i) = true /\
       startswith read_error_prefix (read f) = true /\
       upload i st = ([Notice (ReadFailed (read f))], st)) \/
      (truthy (secret i) = true /\
       startswith read_error_prefix (read f) = false /\
       exists e, generate_content (read f) = inl e /\
         upload i st =
         ([Request (read f);
           Notice (ExtractionFailed (UnboundLocalError (lit "response")))], st)) \/
      (truthy (secret i) = true /\
       startswith read_error_prefix (read f) = false /\
       exists reply msg, generate_content (read f) = inr reply /\
         pd_read_json (strip_fences (py_strip reply)) = inl msg /\
         upload i st =
         ([Request (read f); Notice (InvalidJson reply);
           Notice (ExtractionFailed (ValueError msg))], st)) \/
      (truthy (secret i) = true /\
       startswith read_error_prefix (read f) = false /\
       exists reply series, generate_content (read f) = inr reply /\
         pd_read_json (strip_fences (py_strip reply)) = inr series /\
         upload i st =
         ([Request (read f); Notice ExtractionDone], Some series)))).
Proof.
  intro first. subst first. unfold upload, upload_and_extract.
  destruct (uploaded_file i) as [f|] eqn:U; [|left; auto].
  destruct (extract_clicked i) eqn:B; [|left; auto].
  right. exists f. split; [reflexivity|]. split; [reflexivity|].
  fold read.
  destruct (truthy (secret i)) eqn:K; simpl negb; cbv iota; [|left; auto].
  right.
  destruct (startswith read_error_prefix (read f)) eqn:P; [left; auto|].
  right.
  fold extract.
  destruct (extract_financial_data_cases (read f) (secret i) K)
    as [(e & G & E) | [(reply & msg & G & J & E) | (reply & series & G & J & E)]];
    rewrite E.
  - left. repeat split; auto. now exists e.
  - right. left. repeat split; auto. now exists reply, msg.
  - right. right. repeat split; auto. now exists reply, series.
Qed.

Lemma script_trace (i : inputs) (st : option extracted) :
  exists rest,
    trace (run_script i st) = fst (upload i st) ++ rest /\
    forall n, ~ In (Notice n) rest \/ (n = UploadFirst /\ rest = [Notice UploadFirst]).
Proof.
  unfold run_script, script. fold upload.
  destruct (upload i st) as [evs [data|]]; cbn [fst].
  - destruct (main npf_irr data) as [e fe]. cbn [trace].
    exists (map Flow fe). split; [reflexivity|].
    intro n. left. intro H. apply in_map_iff in H.
    destruct H as (x & Hx & _). discriminate Hx.
  - cbn [trace]. exists [Notice UploadFirst]. split; [reflexivity|].
    intro n. destruct n; try (left; simpl; intuition discriminate).
    right. auto.
Qed.

Lemma script_requests (i : inputs) (st : option extracted) (d : text) :
  In (Request d) (trace (run_script i st)) ->
  In (Request d) (fst (upload i st)).
Proof.
  unfold run_script, script. fold upload.
  destruct (upload i st) as [evs [data|]]; cbn [fst].
  - destruct (main npf_irr data) as [e fe]. cbn [trace].
    intro H. apply in_app_or in H. destruct H as [H | H]; [exact H|].
    apply in_map_iff in H. destruct H as (x & Hx & _). discriminate Hx.
  - cbn [trace]. intro H. apply in_app_or in H.
    destruct H as [H | H]; [exact H|]. simpl in H. intuition discriminate.
Qed.

Lemma script_session (i : inputs) (st : option extracted) :
  session (run_script i st) = snd (upload i st).
Proof.
  unfold run_script, script. fold upload.
  destruct (upload i st) as [evs [data|]]; cbn [snd]; [|reflexivity].
  now destruct (main npf_irr data).
Qed.

(** X16.  The message of line 236 ("API error") is never shown: an
    exception raised by the request is replaced by the [UnboundLocalError]
    of line 96 before it reaches the handlers of lines 235-238, and a reply
    that does not parse raises [ValueError]. *)
Theorem api_failed_notice_never_shown (i : inputs) (st : option extracted) :
  ~ In (Notice ApiFailed) (trace (run_script i st)).
Proof.
  destruct (script_trace i st) as (rest & -> & Hrest).
  intro H. apply in_app_or in H. destruct H as [H | H].
  - destruct (upload_and_extract_cases i st)
      as [[_ E] | (f & _ & _ & [(_ & E) | [(_ & _ & E) |
           [(_ & _ & e & _ & E) | [(_ & _ & r & m & _ & _ & E) |
            (_ & _ & r & s & _ & _ & E)]]]])];
      rewrite E in H; cbn [fst] in H;
      try destruct (negb (truthy (secret i)));
      simpl in H; intuition discriminate.
  - destruct (Hrest ApiFailed) as [Hn | [Hn _]]; [now apply Hn | discriminate Hn].
Qed.

(** X17.  The extraction service is asked only when the button was
    clicked, the secret is a non-empty key and a file is uploaded whose text
    does not begin with the read-error prefix; the text sent is the text
    read from that file. *)
Theorem request_needs_key_and_document
    (i : inputs) (st : option extracted) (d : text) :
  In (Request d) (trace (run_script i st)) ->
  extract_clicked i = true /\ truthy (secret i) = true /\
  exists f, uploaded_file i = Some f /\ d = read f /\
            startswith read_error_prefix d = false.
Proof.
  intro H. apply script_requests in H.
  destruct (upload_and_extract_cases i st)
    as [[_ E] | (f & U & B & [(_ & E) | [(_ & _ & E) |
         [(K & P & e & _ & E) | [(K & P & r & m & _ & _ & E) |
          (K & P & r & s & _ & _ & E)]]]])];
    rewrite E in H; cbn [fst] in H;
    try (destruct (negb (truthy (secret i))); simpl in H; intuition discriminate);
    try (simpl in H; intuition discriminate).
  all: destruct H as [H | H]; [injection H as <- | simpl in H; intuition discriminate].
  all: repeat split; auto; exists f; auto.
Qed.

(** X18.  One run replaces the session's extracted data only by a series
    that the service's reply, cleaned of its fences, parsed to, and it then
    shows the success notice; in every other case the data of the previous
    run is kept as it was. *)
Theorem session_replaced_only_on_success (i : inputs) (st : option extracted) :
  session (run_script i st) = st \/
  exists f reply series,
    uploaded_file i = Some f /\ extract_clicked i = true /\
    truthy (secret i) = true /\
    generate_content (read f) = inr reply /\
    pd_read_json (strip_fences (py_strip reply)) = inr series /\
    session (run_script i st) = Some series /\
    In (Notice ExtractionDone) (trace (run_script i st)).
Proof.
  rewrite script_session.
  destruct (script_trace i st) as (rest & Etr & _). rewrite Etr.
  destruct (upload_and_extract_cases i st)
    as [[_ E] | (f & U & B & [(_ & E) | [(_ & _ & E) |
         [(K & P & e & _ & E) | [(K & P & r & m & _ & _ & E) |
          (K & P & r & s & G & J & E)]]]])];
    rewrite E; cbn [fst snd]; auto.
  right. exists f, r, s. repeat split; auto.
  apply in_or_app. left. simpl. auto.
Qed.

(** X19.  When the request to the extraction service raises, whatever the
    exception, the user is shown the extraction error of line 238 carrying
    the [UnboundLocalError] on [response]; the notice of line 96 is not
    shown and the session's data stays as it was. *)
Theorem failed_request_reported_as_unbound_local
    (i : inputs) (st : option extracted) (f : text) (e : exn) :
  uploaded_file i = Some f -> extract_clicked i = true ->
  truthy (secret i) = true ->
  startswith read_error_prefix (read f) = false ->
  generate_content (read f) = inl e ->
  upload i st =
  ([Request (read f);
    Notice (ExtractionFailed (UnboundLocalError (lit "response")))], st).
Proof.
  intros U B K P G.
  destruct (upload_and_extract_cases i st)
    as [[[U' | B'] _] | (f' & U' & _ & [(K' & _) | [(_ & P' & _) |
         [(_ & _ & e' & _ & E) | [(_ & _ & r & m & G' & _) |
          (_ & _ & r & s & G' & _)]]]])];
    try congruence;
    rewrite U in U'; injection U' as <-; try congruence.
Qed.

(** X20.  A file python-docx cannot read is never sent to the extraction
    service: the text returned for it begins with the read-error prefix, and
    any text that begins with that prefix (also the text of a readable
    document) is shown as an error instead, the session's data unchanged. *)
Theorem unreadable_upload_is_not_sent
    (i : inputs) (st : option extracted) (f : text) :
  uploaded_file i = Some f -> extract_clicked i = true ->
  truthy (secret i) = true ->
  (forall e, docx_paragraphs f = inl e ->
             startswith read_error_prefix (read f) = true) /\
  (startswith read_error_prefix (read f) = true ->
   upload i st = ([Notice (ReadFailed (read f))], st)).
Proof.
  intros U B K. split.
  - intros e He. unfold read, read_docx_file. rewrite He.
    change (lit "Lỗi đọc file Word: ") with (read_error_prefix ++ lit ": ").
    rewrite <- app_assoc. apply startswith_app.
  - intro P.
    destruct (upload_and_extract_cases i st)
      as [[[U' | B'] _] | (f' & U' & _ & [(K' & _) | [(_ & _ & E) |
           [(_ & P' & _) | [(_ & P' & _) | (_ & P' & _)]]]])];
      try congruence;
      rewrite U in U'; injection U' as <-; try congruence.
Qed.

(** X21.  Extracted data with an amount that cannot be converted keeps
    stopping the script: the data stays in the session, so every later run
    without a new extraction shows the conversion error and ends with the
    same [NameError]. *)
Theorem bad_extraction_persists (i : inputs) (data : extracted) :
  extract_clicked i = false ->
  to_float (get (VonDauTu data) 0) = None \/
  to_int (get (DongDoiDuAn data) 0) = None \/
  to_float (get (DoanhThuHangNam data) 0) = None \/
  to_float (get (ChiPhiHoatDongHangNam data) 0) = None ->
  flow_ending (run_script i (Some data)) = Some NameError /\
  session (run_script i (Some data)) = Some data /\
  In (Flow (StError MsgConversion)) (trace (run_script i (Some data))).
Proof.
  intros B Hbad.
  assert (E : upload i (Some data)
              = (if negb (truthy (secret i)) then [Notice NoSecret] else [],
                 Some data)).
  { destruct (upload_and_extract_cases i (Some data))
      as [[_ E] | (f & _ & B' & _)]; [exact E | congruence]. }
  unfold run_script, script. fold upload. rewrite E.
  assert (M : main npf_irr data = (NameError, [StError MsgConversion])).
  { revert Hbad. clear. intro H. unfold main, read_parameters.
    destruct (to_float (get (VonDauTu data) 0)) as [ii|]; [|reflexivity].
    destruct (to_int (get (DongDoiDuAn data) 0)) as [n|]; [|reflexivity].
    destruct (to_float (get (DoanhThuHangNam data) 0)) as [ar|]; [|reflexivity].
    destruct (to_float (get (ChiPhiHoatDongHangNam data) 0)) as [ac|];
      [|reflexivity].
    destruct H as [H | [H | [H | H]]]; discriminate H. }
  rewrite M. cbn [flow_ending session trace].
  repeat split. apply in_or_app. right. simpl. auto.
Qed.

End ScriptFacts.

(** ** Instances of the further properties *)


Lemma net_cash_flow_closed_form_at_scenario :
  exists row,
    iloc (cashflow_data 30000000000 5 15000000000 6000000000 0.20) 0 = Some row /\
    netCashFlow row == 15000000000 - 6000000000 - tax row.
Proof.
  eexists. split; [reflexivity|].
  exact (proj1 (net_cash_flow_closed_form 30000000000 5 15000000000
                  6000000000 0.20 0 _ eq_refl)).
Defined.

Lemma unconvertible_entry_stops_script_at_bad_revenue :
  main irr_two_flows bad_revenue = (NameError, [StError MsgConversion]).
Proof.
  apply unconvertible_entry_stops_script. right. right. left. reflexivity.
Defined.

Lemma project_life_is_floor_or_one_at_half :
  project_life (result (read_parameters half_life)) = 1%Z /\
  events (read_parameters half_life) = [StError MsgProjectLife].
Proof.
  destruct (project_life_is_floor_or_one half_life 1000 (1 # 2) 500 0 0.13 0.20
              eq_refl eq_refl eq_refl eq_refl eq_refl eq_refl)
    as (H1 & H2 & _).
  split; [exact H1 | apply H2; reflexivity].
Defined.

Lemma absent_keys_take_defaults_at_no_life :
  project_life (result (read_parameters no_life)) = 1%Z.
Proof.
  destruct (absent_keys_take_defaults no_life 1000 500 0 0.13 0.20 0
              eq_refl eq_refl eq_refl eq_refl eq_refl eq_refl)
    as (_ & H & _).
  exact (proj1 (H eq_refl)).
Defined.

(** A reply fenced without the json tag. *)
Lemma untagged_fence_is_kept_at_plain_block :
  startswith fence (strip_fences (fence ++ lit "{}" ++ fence)) = true.
Proof.
  apply untagged_fence_is_kept; [reflexivity | reflexivity | simpl; lia].
Defined.

Lemma request_needs_key_and_document_at_click :
  extract_clicked clicked = true /\ truthy (secret clicked) = true.
Proof.
  assert (H : In (Request (read_docx_file docx_plan (lit "PK")))
                (trace (script docx_plan service_fenced read_json_scenario
                          strip_nothing irr_two_flows clicked None)))
    by (vm_compute; left; reflexivity).
  destruct (request_needs_key_and_document docx_plan service_fenced
              read_json_scenario strip_nothing irr_two_flows clicked None _ H)
    as (B & K & _).
  split; assumption.
Defined.

Lemma failed_request_reported_as_unbound_local_at_outage :
  upload_and_extract docx_plan service_down read_json_scenario strip_nothing
    clicked None =
  ([Request (read_docx_file docx_plan (lit "PK"));
    Notice (ExtractionFailed (UnboundLocalError (lit "response")))], None).
Proof.
  apply (failed_request_reported_as_unbound_local docx_plan service_down
           read_json_scenario strip_nothing clicked None (lit "PK")
           (APIError (lit "503 UNAVAILABLE")));
    reflexivity.
Defined.

Lemma unreadable_upload_is_not_sent_at_broken_file :
  upload_and_extract docx_broken service_fenced read_json_scenario strip_nothing
    clicked None =
  ([Notice (ReadFailed (read_docx_file docx_broken (lit "PK")))], None).
Proof.
  destruct (unreadable_upload_is_not_sent docx_broken service_fenced
              read_json_scenario strip_nothing clicked None (lit "PK")
              eq_refl eq_refl eq_refl) as [H1 H2].
  apply H2. apply (H1 (lit "File is not a zip file")). reflexivity.
Defined.

Lemma bad_extraction_persists_at_bad_revenue :
  flow_ending (script docx_plan service_fenced read_json_scenario strip_nothing
                 irr_two_flows idle (Some bad_revenue)) = Some NameError.
Proof.
  apply (bad_extraction_persists docx_plan service_fenced read_json_scenario
           strip_nothing irr_two_flows idle bad_revenue eq_refl).
  right. right. left. reflexivity.
Defined.

(** * The payback blocks in the arithmetic of the machine *)

Lemma where_from_first_mask (mask : list bool) (i : nat) :
  match Np.where_from i mask with
  | [] => forall j, (j < length mask)%nat -> nth j mask false = false
  | k :: _ => exists y, k = (i + y)%nat /\ (y < length mask)%nat /\
                        nth y mask false = true /\
                        forall j, (j < y)%nat -> nth j mask false = false
  end.
Proof.
  revert i. induction mask as [|b rest IH]; intro i; simpl.
  - intros j Hj. lia.
  - destruct b.
    + exists 0%nat. repeat split; try lia.
    + specialize (IH (S i)).
      destruct (Np.where_from (S i) rest) as [|k ks].
      * intros [|j] Hj; [reflexivity|]. apply IH. lia.
      * destruct IH as (y & -> & Hy & Ht & Hf).
        exists (S y). repeat split; try lia; [exact Ht|].
        intros [|j] Hj; [reflexivity|]. apply Hf. lia.
Qed.

Lemma skipn_cons_item {T : Type} (l : list T) (n : nat) (x d : T) (rest : list T) :
  skipn n l = x :: rest -> nth n l d = x /\ skipn (S n) l = rest.
Proof.
  revert n. induction l as [|a l IH]; intros n H.
  - destruct n; discriminate H.
  - destruct n as [|n].
    + simpl in H. injection H as -> ->. now split.
    + simpl in H. destruct (IH n H) as [H1 H2]. split; [exact H1 | exact H2].
Qed.

Lemma nth_map_seq_any {T : Type} (f : nat -> T) (n lo i : nat) (d : T) :
  (i < n)%nat -> nth i (map f (seq lo n)) d = f (lo + i)%nat.
Proof.
  revert lo i. induction n as [|n IH]; intros lo i Hi; [lia|].
  destruct i as [|i]; simpl.
  - now rewrite Nat.add_0_r.
  - rewrite IH by lia. f_equal. lia.
Qed.

Section MachineFacts.

Variable A : Machine.arithmetic.

Lemma machine_cumsum_from_length (a : list (Machine.num A)) (acc : Machine.num A) :
  length (Machine.cumsum_from A acc a) = length a.
Proof.
  revert acc. induction a as [|x rest IH]; intro acc; simpl; [reflexivity|].
  now rewrite IH.
Qed.

Lemma machine_cumsum_length (a : list (Machine.num A)) :
  length (Machine.cumsum A a) = length a.
Proof.
  destruct a as [|x rest]; simpl; [reflexivity|].
  now rewrite machine_cumsum_from_length.
Qed.

(** Accumulating from the running total of the first [k + 1] entries over
    the entries that follow gives the later running totals. *)
Lemma machine_cumsum_from_item (F a : list (Machine.num A)) (k j : nat) :
  skipn (S k) F = a -> (j < length a)%nat ->
  Machine.item A (Machine.cumsum_from A (Machine.running_total A F k) a) j
  = Machine.running_total A F (S k + j).
Proof.
  revert k j. induction a as [|x rest IH]; intros k j Hs Hj; simpl in Hj.
  - lia.
  - destruct (skipn_cons_item F (S k) x (Machine.zero A) rest Hs) as [Hx Hrest].
    assert (Hstep : Machine.add A (Machine.running_total A F k) x
                    = Machine.running_total A F (S k)).
    { simpl. unfold Machine.item. now rewrite Hx. }
    unfold Machine.item. simpl Machine.cumsum_from. rewrite Hstep.
    destruct j as [|j].
    + simpl nth. now rewrite Nat.add_0_r.
    + simpl nth. replace (S k + S j)%nat with (S (S k) + j)%nat by lia.
      apply (IH (S k) j Hrest). lia.
Qed.

(** [np.cumsum] holds the running totals. *)
Lemma machine_cumsum_item (F : list (Machine.num A)) (y : nat) :
  (y < length F)%nat ->
  Machine.item A (Machine.cumsum A F) y = Machine.running_total A F y.
Proof.
  destruct F as [|x rest]; simpl; intro Hy; [lia|].
  destruct y as [|y]; [reflexivity|].
  unfold Machine.item. simpl nth.
  apply (machine_cumsum_from_item (x :: rest) rest 0 y); [reflexivity | lia].
Qed.

Lemma machine_mask_item (c : list (Machine.num A)) (j : nat) :
  (j < length c)%nat ->
  nth j (map (Machine.ge0 A) c) false = Machine.ge0 A (Machine.item A c j).
Proof.
  intro Hj. unfold Machine.item.
  rewrite (nth_indep _ false (Machine.ge0 A (Machine.zero A)))
    by now rewrite length_map.
  apply map_nth.
Qed.

Lemma machine_where_first (F : list (Machine.num A)) :
  match Np.where_true (map (Machine.ge0 A) (Machine.cumsum A F)) with
  | [] => forall y, (y < length F)%nat ->
                    Machine.ge0 A (Machine.running_total A F y) = false
  | y :: _ => Machine.payback_year A F y
  end.
Proof.
  unfold Np.where_true.
  assert (H := where_from_first_mask (map (Machine.ge0 A) (Machine.cumsum A F)) 0).
  assert (Hlen : length (map (Machine.ge0 A) (Machine.cumsum A F)) = length F)
    by now rewrite length_map, machine_cumsum_length.
  assert (Hitem : forall j, (j < length F)%nat ->
            nth j (map (Machine.ge0 A) (Machine.cumsum A F)) false
            = Machine.ge0 A (Machine.running_total A F j)).
  { intros j Hj. rewrite machine_mask_item by now rewrite machine_cumsum_length.
    now rewrite machine_cumsum_item. }
  destruct (Np.where_from 0 (map (Machine.ge0 A) (Machine.cumsum A F))) as [|k ks].
  - intros y Hy. rewrite <- Hitem by exact Hy. apply H. now rewrite Hlen.
  - destruct H as (y & -> & Hy & Ht & Hf). simpl. rewrite Hlen in Hy.
    repeat split.
    + exact Hy.
    + now rewrite <- Hitem.
    + intros j Hj. rewrite <- Hitem by lia. now apply Hf.
Qed.

(** The block computes the rule on its vector, in any arithmetic. *)
Lemma machine_block_rule (F : list (Machine.num A)) :
  Machine.payback_rule A F (Machine.payback_block A F).
Proof.
  unfold Machine.payback_block. assert (H := machine_where_first F).
  destruct (Np.where_true (map (Machine.ge0 A) (Machine.cumsum A F))) as [|y ys].
  - now apply Machine.rule_never.
  - destruct y as [|y]; simpl Nat.eqb; cbv iota.
    + now apply Machine.rule_year0.
    + replace (S y - 1)%nat with y by lia.
      rewrite machine_cumsum_item by (destruct H; lia).
      destruct (Machine.ne0 A (Machine.item A F (S y))) eqn:E.
      * now apply Machine.rule_interpolate.
      * now apply Machine.rule_zero_flow.
Qed.

Lemma machine_payback_year_unique (F : list (Machine.num A)) (y z : nat) :
  Machine.payback_year A F y -> Machine.payback_year A F z -> y = z.
Proof.
  intros (_ & Hy & Hly) (_ & Hz & Hlz).
  destruct (Nat.lt_trichotomy y z) as [H | [H | H]]; [|exact H|].
  - specialize (Hlz y H). congruence.
  - specialize (Hly z H). congruence.
Qed.

(** The rule leaves one result. *)
Lemma machine_rule_deterministic (F : list (Machine.num A))
    (p q : Machine.period (Machine.num A)) :
  Machine.payback_rule A F p -> Machine.payback_rule A F q -> p = q.
Proof.
  intros Hp Hq.
  destruct Hp as [Hy | y Hy Hnz | y Hy Hz | Hall];
  destruct Hq as [Hy' | z Hy' Hnz' | z Hy' Hz' | Hall'];
    try reflexivity;
    try (assert (E := machine_payback_year_unique F _ _ Hy Hy');
         try discriminate E; injection E as ->; try reflexivity; congruence).
  all: try (destruct Hy as (Hlen & Hge & _); specialize (Hall' _ Hlen); congruence).
  all: try (destruct Hy' as (Hlen & Hge & _); specialize (Hall _ Hlen); congruence).
Qed.

Lemma machine_pp_eq (cash_flows : list (Machine.num A))
    (C0 wacc : Machine.num A) :
  fst (Machine.payback_periods A cash_flows C0 wacc)
  = Machine.payback_block A (Machine.neg A C0 :: cash_flows).
Proof. reflexivity. Qed.

Lemma machine_dpp_eq (cash_flows : list (Machine.num A))
    (C0 wacc : Machine.num A) :
  snd (Machine.payback_periods A cash_flows C0 wacc)
  = Machine.payback_block A
      (Machine.discounted_cf A (Machine.neg A C0 :: cash_flows) wacc).
Proof. reflexivity. Qed.

Lemma machine_times_length (a b : list (Machine.num A)) :
  length a = length b -> length (Machine.times A a b) = length a.
Proof.
  revert b. induction a as [|x a IH]; intros [|y b] H; simpl in *;
    try reflexivity; try discriminate.
  f_equal. apply IH. lia.
Qed.

Lemma machine_times_item (a b : list (Machine.num A)) (i : nat) :
  (i < length a)%nat -> length a = length b ->
  Machine.item A (Machine.times A a b) i
  = Machine.mul A (Machine.item A a i) (Machine.item A b i).
Proof.
  unfold Machine.item. revert b i.
  induction a as [|x a IH]; intros [|y b] i Hi Hlen; simpl in *;
    try lia; try discriminate.
  destruct i as [|i]; [reflexivity|]. apply IH; lia.
Qed.

Lemma machine_inv_pow_item (base : Machine.num A) (n i : nat) :
  (i < n)%nat ->
  Machine.item A (Machine.inv_pow A base (Np.arange 0 n)) i
  = Machine.div A (Machine.one A) (Machine.power A base i).
Proof.
  intro Hi. unfold Machine.item, Machine.inv_pow, Np.arange.
  rewrite Nat.sub_0_r. now rewrite nth_map_seq_any by exact Hi.
Qed.

(** The vector of line 140, entry by entry. *)
Lemma machine_discounted_cf_item (F : list (Machine.num A))
    (wacc : Machine.num A) :
  length (Machine.discounted_cf A F wacc) = length F /\
  forall i, (i < length F)%nat ->
    Machine.item A (Machine.discounted_cf A F wacc) i
    = Machine.mul A (Machine.item A F i)
        (Machine.div A (Machine.one A)
           (Machine.power A (Machine.add A (Machine.one A) wacc) i)).
Proof.
  assert (Hlen : length (Machine.inv_pow A (Machine.add A (Machine.one A) wacc)
                           (Np.arange 0 (length F))) = length F).
  { unfold Machine.inv_pow, Np.arange. rewrite length_map, length_seq. lia. }
  unfold Machine.discounted_cf. split.
  - now apply machine_times_length.
  - intros i Hi. rewrite machine_times_item by (auto; lia).
    now rewrite machine_inv_pow_item.
Qed.

End MachineFacts.

(** In exact arithmetic the blocks are those of the rational model. *)
Lemma exact_block_is_rational_block (F : list Q) :
  Machine.payback_block Machine.exact F = to_period (payback_block F (Np.cumsum F)).
Proof.
  unfold Machine.payback_block, payback_block.
  change (map (Machine.ge0 Machine.exact) (Machine.cumsum Machine.exact F))
    with (Np.ge0 (Np.cumsum F)).
  destruct (Np.where_true (Np.ge0 (Np.cumsum F))) as [|y ys]; [reflexivity|].
  destruct (Nat.eqb y 0); [reflexivity|].
  change (Machine.ne0 Machine.exact (Machine.item Machine.exact F y))
    with (negb (Qeq_bool (Np.item F y) 0)).
  destruct (negb (Qeq_bool (Np.item F y) 0)); reflexivity.
Qed.

Lemma exact_periods_are_rational_periods
    (npf_irr : list Q -> irr_outcome) (df : DataFrame) (C0 wacc : Q) :
  Machine.payback_periods Machine.exact (col_CF df) C0 wacc =
  (to_period (pp (calculate_project_metrics npf_irr df C0 wacc)),
   to_period (dpp (calculate_project_metrics npf_irr df C0 wacc))).
Proof.
  rewrite (surjective_pairing (Machine.payback_periods _ _ _ _)).
  rewrite machine_pp_eq, machine_dpp_eq, !exact_block_is_rational_block.
  reflexivity.
Qed.

(** Binary64 on an outlay of 1.0 and five flows of 0.2: the running total
    ends just below zero and there is no payback. *)
Example binary64_fifths :
  fst (Machine.payback_periods Machine.binary64
         (repeat (2 / 10)%float 5) 1%float (13 / 100)%float)
  = Machine.NoPayback.
Proof. vm_compute. reflexivity. Qed.

(** Binary64 on an outlay of 7.0 and five flows of 1.4: the running total
    ends just above zero and the payback period is a number. *)
Example binary64_sevenths :
  exists t,
    fst (Machine.payback_periods Machine.binary64
           (repeat (14 / 10)%float 5) 7%float (13 / 100)%float)
    = Machine.Finite t.
Proof. eexists. vm_compute. reflexivity. Qed.

(** C3.  In whatever arithmetic the code runs (binary64 included), the
    payback period follows the rule of section 4.3 on the vector
    [F = [-C0, CF_1..CF_N]], the cumulative sums being np.cumsum's running
    totals: with [y] the smallest index whose running total passes [>= 0],
    PP is 0 when [y = 0], [(y-1) + |total(y-1)| / F_y] when [F_y != 0], [y]
    when [F_y == 0], and the no-payback value when no index qualifies; the
    rule leaves no other result. *)
Theorem pp_follows_machine_rule
    (A : Machine.arithmetic) (cash_flows : list (Machine.num A))
    (C0 wacc : Machine.num A) :
  Machine.payback_rule A (Machine.neg A C0 :: cash_flows)
    (fst (Machine.payback_periods A cash_flows C0 wacc)) /\
  forall p, Machine.payback_rule A (Machine.neg A C0 :: cash_flows) p ->
            p = fst (Machine.payback_periods A cash_flows C0 wacc).
Proof.
  rewrite machine_pp_eq.
  assert (H := machine_block_rule A (Machine.neg A C0 :: cash_flows)).
  split; [exact H|].
  intros p Hp. now apply (machine_rule_deterministic A (Machine.neg A C0 :: cash_flows)).
Qed.

(** Binary64 on an outlay of 100, one flow of 108 and a rate of 8%: the
    code's discounted flow is [108 * (1 / 1.08)], just below 100, and DPP is
    the no-payback value, while the same block on the vector of entries
    [F_i / (1+wacc)^i], whose second entry is [108 / 1.08 = 100.0], gives
    1.0. *)
Example binary64_eight_percent :
  snd (Machine.payback_periods Machine.binary64
         [108%float] 100%float (8 / 100)%float) = Machine.NoPayback /\
  Machine.payback_block Machine.binary64
    (Machine.divided Machine.binary64
       [(-100)%float; 108%float] (8 / 100)%float) = Machine.Finite 1%float.
Proof. split; vm_compute; reflexivity. Qed.

(** C4, as stated, fails in binary64: DPP is not always what the payback
    block gives on the vector of entries [F_i / (1+wacc)^i], also for
    [wacc > 0] (an outlay of 100, one flow of 108, a rate of 8%). *)
Lemma dpp_is_not_pp_of_divided_flows :
  ~ (forall (cash_flows : list float) (C0 wacc : float),
       PrimFloat.ltb 0%float wacc = true ->
       snd (Machine.payback_periods Machine.binary64 cash_flows C0 wacc) =
       Machine.payback_block Machine.binary64
         (Machine.divided Machine.binary64
            (PrimFloat.opp C0 :: cash_flows) wacc)).
Proof.
  intro H.
  specialize (H [108%float] 100%float (8 / 100)%float eq_refl).
  vm_compute in H. discriminate H.
Qed.

(** C4, as amended.  In whatever arithmetic the code runs, the discounted
    payback period is computed by the payback rule of C3 (first index, year
    0, interpolation, zero divisor, no payback) applied to the vector of
    line 140, whose entry [i] is [F_i * (1 / (1+wacc)^i)]; it is the payback
    period the function returns for any project whose full vector is that
    one. *)
Theorem dpp_follows_rule_on_discounted_cf
    (A : Machine.arithmetic) (cash_flows : list (Machine.num A))
    (C0 wacc : Machine.num A) :
  let F := Machine.neg A C0 :: cash_flows in
  let D := Machine.discounted_cf A F wacc in
  let dpp := snd (Machine.payback_periods A cash_flows C0 wacc) in
  (length D = length F /\
   forall i, (i < length F)%nat ->
     Machine.item A D i
     = Machine.mul A (Machine.item A F i)
         (Machine.div A (Machine.one A)
            (Machine.power A (Machine.add A (Machine.one A) wacc) i))) /\
  Machine.payback_rule A D dpp /\
  (forall p, Machine.payback_rule A D p -> p = dpp) /\
  (forall cash_flows' C0' wacc',
     Machine.neg A C0' :: cash_flows' = D ->
     dpp = fst (Machine.payback_periods A cash_flows' C0' wacc')).
Proof.
  intros F D dpp. subst dpp. rewrite machine_dpp_eq. fold F. fold D.
  assert (H := machine_block_rule A D).
  split; [apply machine_discounted_cf_item|].
  split; [exact H|]. split.
  - intros p Hp. now apply (machine_rule_deterministic A D).
  - intros cash_flows' C0' wacc' E. rewrite machine_pp_eq, E. reflexivity.
Qed.

(** Binary64 on an outlay of 100, one flow of 105 and a rate of 5%: the
    discounted flow rounds to 100.0 and DPP is 1.0. *)
Example binary64_five_percent :
  snd (Machine.payback_periods Machine.binary64
         [105%float] 100%float (5 / 100)%float) = Machine.Finite 1%float.
Proof. vm_compute. reflexivity. Qed.

(** * The rate of return and the sign of the investment *)

Lemma irr_two_flows_needs_sign_change : irr_needs_sign_change irr_two_flows.
Proof.
  intros F r H.
  destruct F as [|a [|b [|c F]]]; try discriminate H.
  unfold irr_two_flows in H.
  destruct ((Qltb a 0 && Qltb 0 b) || (Qltb 0 a && Qltb b 0)) eqn:E;
    [|discriminate H].
  exists 0%nat, 1%nat. split; [simpl; lia|].
  apply orb_true_iff in E. destruct E as [E | E];
    apply andb_true_iff in E; destruct E as [E1 E2];
    apply Qltb_lt in E1; apply Qltb_lt in E2; [left | right]; now split.
Qed.

Lemma nonneg_vector_no_sign_change (F : list Q) :
  Forall (fun x => 0 <= x) F -> ~ sign_change F.
Proof.
  intros Hall (i & j & Hij & [[Hneg _] | [_ Hneg]]);
    rewrite Forall_forall in Hall.
  - assert (Hin : In (flow F i) F) by (apply nth_In; lia).
    apply Hall in Hin. lra.
  - assert (Hin : In (flow F j) F) by (apply nth_In; lia).
    apply Hall in Hin. lra.
Qed.

(** C6, as amended.  Let every yearly net cash flow be strictly positive,
    over at least one year.  If the initial investment is not positive
    ([C0 <= 0]) the vector [[-C0, CF_1..CF_N]] has no sign change, and the
    IRR result is [nan] whenever [npf.irr] returns a rate only for a vector
    with a sign change.  If [C0 > 0] the vector has a sign change and the
    IRR result is what [npf.irr] gives for it: the value it returns, or
    [nan] when it raises [ValueError]. *)
Theorem irr_by_sign_of_investment
    (npf_irr : list Q -> irr_outcome) (df : DataFrame) (C0 wacc : Q) :
  Forall (fun x => 0 < x) (col_CF df) ->
  col_CF df <> [] ->
  (C0 <= 0 ->
     ~ sign_change (full_vector df C0) /\
     (irr_needs_sign_change npf_irr ->
      irr_value (calculate_project_metrics npf_irr df C0 wacc) = NaN)) /\
  (0 < C0 ->
     sign_change (full_vector df C0) /\
     (forall x, npf_irr (full_vector df C0) = IrrReturn x ->
        irr_value (calculate_project_metrics npf_irr df C0 wacc) = x) /\
     (npf_irr (full_vector df C0) = IrrValueError ->
        irr_value (calculate_project_metrics npf_irr df C0 wacc) = NaN)).
Proof.
  intros Hpos Hne. split.
  - intro HC.
    assert (Hno : ~ sign_change (full_vector df C0)).
    { apply nonneg_vector_no_sign_change. constructor; [lra|].
      eapply Forall_impl; [|exact Hpos]. intros x Hx. simpl in Hx. lra. }
    split; [exact Hno|]. intro Hc. rewrite irr_value_eq.
    destruct (npf_irr (full_vector df C0)) as [[r|]|] eqn:E; try reflexivity.
    exfalso. apply Hno. exact (Hc _ _ E).
  - intro HC. split; [|split].
    + destruct (col_CF df) as [|x rest] eqn:E; [contradiction|].
      exists 0%nat, 1%nat. unfold full_vector, flow. rewrite E. simpl.
      split; [lia|]. left. split; [lra|]. now inversion Hpos.
    + intros x E. rewrite irr_value_eq. now rewrite E.
    + intro E. rewrite irr_value_eq. now rewrite E.
Qed.

(** Three yearly flows of 500 for no outlay: no rate of return. *)
Lemma irr_by_sign_of_investment_at_gift :
  irr_value (calculate_project_metrics irr_two_flows
               (cashflow_data 0 3 500 0 0) 0 0.13) = NaN.
Proof.
  assert (Hpos : Forall (fun x => 0 < x) (col_CF (cashflow_data 0 3 500 0 0)))
    by (simpl; repeat constructor).
  assert (Hne : col_CF (cashflow_data 0 3 500 0 0) <> [])
    by (simpl; discriminate).
  destruct (irr_by_sign_of_investment irr_two_flows (cashflow_data 0 3 500 0 0)
              0 0.13 Hpos Hne) as [H _].
  apply H; [lra | exact irr_two_flows_needs_sign_change].
Defined.

(** C6, as stated, fails: an investment of 1 returning 2 after one year has
    all yearly flows positive and a positive investment; its vector
    [[-1, 2]] changes sign and its rate of return is 100%, which a solver
    meeting both contracts returns. *)
Lemma positive_flows_have_a_rate :
  ~ (forall (npf_irr : list Q -> irr_outcome) (df : DataFrame) (C0 wacc : Q),
       irr_sound npf_irr -> irr_needs_sign_change npf_irr ->
       0 < C0 -> Forall (fun x => 0 < x) (col_CF df) -> 0 < wacc ->
       irr_value (calculate_project_metrics npf_irr df C0 wacc) = NaN).
Proof.
  intro H.
  specialize (H irr_two_flows (cashflow_data 1 1 2 0 0) 1 0.13
                irr_two_flows_sound irr_two_flows_needs_sign_change).
  assert (E : irr_value (calculate_project_metrics irr_two_flows
                           (cashflow_data 1 1 2 0 0) 1 0.13) = NaN).
  { apply H; [lra | simpl; repeat constructor | lra]. }
  vm_compute in E. discriminate E.
Qed.

(** * The flow under either repair of lines 371-374 *)

Section RepairFacts.

Variable npf_irr : list Q -> irr_outcome.
Variable rp : repair.

(** Either repair leaves the same run behind, and neither adds an
    [st.error]: the events of lines 294-382 are warnings. *)
Lemma appraise_under_result (v : locals) (R C : Q) :
  result (appraise_under npf_irr rp v R C) = result (appraise npf_irr v R C) /\
  forall e, In e (events (appraise_under npf_irr rp v R C)) ->
            exists m, e = StWarning m.
Proof.
  unfold appraise_under, appraise.
  destruct ((0 <? project_life v)%Z && Qle_bool 0 (initial_investment v))%bool.
  - destruct (Qltb 0 (wacc v)) eqn:W; destruct rp;
      unfold bind, ret, st_warning, result, events;
      cbn [fst snd run_metrics_data andb];
      rewrite ?metrics_data_irr_not_nan; cbn [fst snd app];
      (split; [reflexivity|]);
      intros e He; simpl in He; intuition (subst; eauto).
  - unfold bind, ret, st_warning, result, events. cbn [fst snd app].
    split; [reflexivity|]. intros e He. simpl in He. intuition (subst; eauto).
Qed.

Lemma main_under_runs (data : extracted) (R C : Q) :
  annual_revenue (result (read_parameters data)) = Some R ->
  annual_cost (result (read_parameters data)) = Some C ->
  result (main_under npf_irr rp data) =
    Completed (result (appraise npf_irr (result (read_parameters data)) R C)) /\
  forall m, In (StError m) (events (main_under npf_irr rp data)) <->
            In (StError m) (events (read_parameters data)).
Proof.
  intros HR HC. unfold main_under.
  rewrite result_bind, events_bind, HR, HC.
  rewrite result_bind, events_bind.
  destruct (appraise_under_result (result (read_parameters data)) R C) as [E Hw].
  split.
  - simpl. now rewrite E.
  - intro m. simpl. rewrite app_nil_r. split.
    + intro H. apply in_app_or in H. destruct H as [H | H]; [exact H|].
      destruct (Hw _ H) as [m' Hm']. discriminate Hm'.
    + intro H. apply in_or_app. now left.
Qed.

End RepairFacts.

Lemma appraise_under_else_of_if
    (npf_irr : list Q -> irr_outcome) (v : locals) (R C : Q) :
  appraise_under npf_irr ElseOfIf v R C = appraise npf_irr v R C.
Proof.
  unfold appraise_under, appraise.
  destruct ((0 <? project_life v)%Z && Qle_bool 0 (initial_investment v))%bool;
    [|reflexivity].
  destruct (Qltb 0 (wacc v)); unfold bind, ret, st_warning;
    cbn [fst snd run_metrics_data andb];
    rewrite ?metrics_data_irr_not_nan; reflexivity.
Qed.

(** [main] is the flow under the repair [ElseOfIf]. *)
Lemma main_under_else_of_if
    (npf_irr : list Q -> irr_outcome) (data : extracted) :
  main_under npf_irr ElseOfIf data = main npf_irr data.
Proof.
  unfold main_under, main, bind.
  destruct (read_parameters data) as [v l]. cbn [fst snd].
  destruct (annual_revenue v) as [R|]; [|reflexivity].
  destruct (annual_cost v) as [C|]; [|reflexivity].
  now rewrite appraise_under_else_of_if.
Qed.

(** C8, as stated, fails under either repair: with a project life of 0 and a
    revenue that is text the script does not go on with a life of 1 and a
    message on the life, it stops with a [NameError]. *)
Lemma zero_life_with_text_revenue_aborts :
  ~ (exists rp,
       forall (npf_irr : list Q -> irr_outcome) (data : extracted) (n : Z),
         to_int (get (DongDoiDuAn data) 0) = Some n -> (n <= 0)%Z ->
         exists r, result (main_under npf_irr rp data) = Completed r /\
                   project_life (run_locals r) = 1%Z /\
                   In (StError MsgProjectLife)
                      (events (main_under npf_irr rp data))).
Proof.
  intros [rp H].
  destruct (H irr_two_flows zero_life_text_revenue 0%Z eq_refl (Z.le_refl 0))
    as (r & Hr & _).
  destruct rp; vm_compute in Hr; discriminate Hr.
Qed.

(** With a project life of 0 and a WACC that is text the run completes with
    a life of 1, and the message on the life is not shown. *)
Example zero_life_with_text_rate_is_silent (rp : repair) :
  (exists r, result (main_under irr_two_flows rp zero_life_text_rate) =
               Completed r /\ project_life (run_locals r) = 1%Z) /\
  ~ In (StError MsgProjectLife)
       (events (main_under irr_two_flows rp zero_life_text_rate)).
Proof.
  split.
  - destruct rp; eexists; (split; [vm_compute; reflexivity | reflexivity]).
  - destruct rp; vm_compute; intuition discriminate.
Qed.

(** C8, as amended.  When the supplied project life coerces to an integer
    [n <= 0] and the investment, revenue and cost entries are numeric, the
    script runs to its end with [project_life = 1], under either repair of
    lines 371-374 (the analysis button of line 362 not pressed).  When WACC
    and the tax rate are numeric too, the one [st.error] shown is the
    message on the project life and, for an investment [>= 0], the table is
    built with one row.  When WACC or the tax rate is not numeric, the one
    [st.error] shown is the conversion error (the life is not reported) and
    the table is built with one row. *)
Theorem nonpositive_life_becomes_one
    (npf_irr : list Q -> irr_outcome) (rp : repair) (data : extracted)
    (ii ar ac : Q) (n : Z) :
  to_float (get (VonDauTu data) 0) = Some ii ->
  to_int (get (DongDoiDuAn data) 0) = Some n ->
  to_float (get (DoanhThuHangNam data) 0) = Some ar ->
  to_float (get (ChiPhiHoatDongHangNam data) 0) = Some ac ->
  (n <= 0)%Z ->
  exists r,
    result (main_under npf_irr rp data) = Completed r /\
    project_life (run_locals r) = 1%Z /\
    (forall w t,
       to_float (get (WACC data) 0.13) = Some w ->
       to_float (get (ThueSuat data) 0.20) = Some t ->
       (forall m, In (StError m) (events (main_under npf_irr rp data)) <->
                  m = MsgProjectLife) /\
       (0 <= ii -> exists df, run_df r = Some df /\ df_len df = 1%nat)) /\
    (to_float (get (WACC data) 0.13) = None \/
     to_float (get (ThueSuat data) 0.20) = None ->
       (forall m, In (StError m) (events (main_under npf_irr rp data)) <->
                  m = MsgConversion) /\
       exists df, run_df r = Some df /\ df_len df = 1%nat).
Proof.
  intros Hii Hn Har Hac Hle.
  assert (Hb : (n <=? 0)%Z = true) by now apply Z.leb_le.
  assert (Hone : forall m m0 : message,
            In (StError m) [StError m0] <-> m = m0).
  { intros m m0. simpl. split.
    - intros [H | H]; [now injection H | contradiction].
    - intros ->. now left. }
  destruct (to_float (get (WACC data) 0.13)) as [w|] eqn:Hw;
    [destruct (to_float (get (ThueSuat data) 0.20)) as [t|] eqn:Ht|].
  - assert (E := read_parameters_ok data ii ar ac n Hii Hn Har Hac w t Hw Ht).
    rewrite Hb in E.
    destruct (main_under_runs npf_irr rp data ar ac) as [Hres Hev];
      try (rewrite E; reflexivity).
    eexists. split; [exact Hres|].
    rewrite appraise_locals. rewrite E in Hev |- *. cbn [result events fst snd] in *.
    split; [reflexivity|]. split.
    + intros w' t' _ _. split.
      * intro m. rewrite Hev. apply Hone.
      * intro Hpos. eexists. split.
        -- apply appraise_df; simpl; [lia | exact Hpos].
        -- now apply cashflow_data_len.
    + intros [H | H]; discriminate H.
  - assert (E := read_parameters_rate_failed data ii ar ac n Hii Hn Har Hac
                   (or_intror Ht)).
    destruct (main_under_runs npf_irr rp data ar ac) as [Hres Hev];
      try (rewrite E; reflexivity).
    eexists. split; [exact Hres|].
    rewrite appraise_locals. rewrite E in Hev |- *. cbn [result events fst snd] in *.
    split; [reflexivity|]. split.
    + intros w' t' _ Ht'. discriminate Ht'.
    + intros _. split.
      * intro m. rewrite Hev. apply Hone.
      * eexists. split.
        -- apply appraise_df; simpl; [lia | lra].
        -- now apply cashflow_data_len.
  - assert (E := read_parameters_rate_failed data ii ar ac n Hii Hn Har Hac
                   (or_introl Hw)).
    destruct (main_under_runs npf_irr rp data ar ac) as [Hres Hev];
      try (rewrite E; reflexivity).
    eexists. split; [exact Hres|].
    rewrite appraise_locals. rewrite E in Hev |- *. cbn [result events fst snd] in *.
    split; [reflexivity|]. split.
    + intros w' t' Hw' _. discriminate Hw'.
    + intros _. split.
      * intro m. rewrite Hev. apply Hone.
      * eexists. split.
        -- apply appraise_df; simpl; [lia | lra].
        -- now apply cashflow_data_len.
Qed.

(** A project life of 0 with numeric entries: life 1, script completed. *)
Lemma nonpositive_life_becomes_one_at_zero :
  exists r,
    result (main_under irr_two_flows ElseOfTry zero_life_data) = Completed r /\
    project_life (run_locals r) = 1%Z.
Proof.
  destruct (nonpositive_life_becomes_one irr_two_flows ElseOfTry zero_life_data
              1000 500 0 0 eq_refl eq_refl eq_refl eq_refl (Z.le_refl 0))
    as (r & Hr & Hlife & _).
  exists r. split; [exact Hr | exact Hlife].
Defined.

(** X7.  When the four amounts convert but WACC or the tax rate does not,
    the handler replaces the valid investment and project life as well: under
    either repair of lines 371-374 the run goes on with investment 0, life 1,
    WACC 0.13 and tax rate 0.2, builds a one-row table and computes the
    metrics on it, and the conversion error is the one [st.error] shown
    (the analysis button of line 362 not pressed). *)
Theorem unconvertible_rate_resets_inputs
    (npf_irr : list Q -> irr_outcome) (rp : repair) (data : extracted)
    (ii ar ac : Q) (n : Z) :
  to_float (get (VonDauTu data) 0) = Some ii ->
  to_int (get (DongDoiDuAn data) 0) = Some n ->
  to_float (get (DoanhThuHangNam data) 0) = Some ar ->
  to_float (get (ChiPhiHoatDongHangNam data) 0) = Some ac ->
  to_float (get (WACC data) 0.13) = None \/
  to_float (get (ThueSuat data) 0.20) = None ->
  let df := cashflow_data 0 1 ar ac 0.2 in
  result (main_under npf_irr rp data) =
    Completed
      (mkRun (mkLocals 0 1 (Some ar) (Some ac) 0.13 0.2) (Some df)
         (Some (calculate_project_metrics npf_irr df 0 0.13))
         (Some (metrics_data (calculate_project_metrics npf_irr df 0 0.13)))) /\
  forall m, In (StError m) (events (main_under npf_irr rp data)) <->
            m = MsgConversion.
Proof.
  intros Hii Hn Har Hac Hrate df.
  assert (E := read_parameters_rate_failed data ii ar ac n Hii Hn Har Hac Hrate).
  destruct (main_under_runs npf_irr rp data ar ac) as [Hres Hev];
    try (rewrite E; reflexivity).
  rewrite E in Hres, Hev. cbn [result events fst snd] in Hres, Hev.
  split.
  - rewrite Hres. rewrite appraise_metrics by reflexivity. reflexivity.
  - intro m. rewrite Hev. simpl. split.
    + intros [H | H]; [now injection H | contradiction].
    + intros ->. now left.
Qed.

(** A WACC that is text next to valid amounts: investment and life reset. *)
Lemma unconvertible_rate_resets_inputs_at_bad_rate :
  exists r,
    result (main_under irr_two_flows ElseOfTry bad_rate) = Completed r /\
    run_locals r = mkLocals 0 1 (Some 500) (Some 0) 0.13 0.2.
Proof.
  eexists. split.
  - exact (proj1 (unconvertible_rate_resets_inputs irr_two_flows ElseOfTry
                    bad_rate 1000 500 0 3 eq_refl eq_refl eq_refl eq_refl
                    (or_introl eq_refl))).
  - reflexivity.
Defined.

(** The two repairs differ on that input in the WACC warning alone: with
    [else] read as the [else] of the [try] it is shown although
    [wacc = 0.13 > 0]. *)
Example bad_rate_logs :
  events (main_under irr_two_flows ElseOfIf bad_rate) = [StError MsgConversion] /\
  events (main_under irr_two_flows ElseOfTry bad_rate) =
    [StError MsgConversion; StWarning MsgWacc].
Proof. split; vm_compute; reflexivity. Qed.
